(** * Lesson Planner: prompt construction and the session state machine

    A shallow embedding of [src/Chatbot.py].  The Streamlit script is one
    function, [main], that is run from top to bottom on every user
    interaction: the widgets hand it the current field values and which
    button (if any) was pressed, [st.session_state] carries the plan and the
    chat history from one run to the next, and the OpenAI client is the only
    outbound call.  The embedding makes those three things explicit:

    - the widget values of one run are a [Widgets] record;
    - [st.session_state] is a [SessionState] value passed in and returned;
    - the client is a function from a request to an [Outcome], and every
      function that may call it also returns the requests it issued and the
      status messages ([st.error], [st.warning], [st.success]) it displayed.

    Purely presentational calls (page configuration, CSS, sub-headers, the
    rendering loop over the history) have no effect on the state or on the
    client and are left out. *)

From Stdlib Require Import String Ascii List ZArith Bool Lia DecimalString.
From Stdlib Require Import Floats.PrimFloat.
Import ListNotations.

Set Warnings "-inexact-float".

Local Open Scope list_scope.
Local Open Scope string_scope.

(** ** Python primitives used by the script *)

Module Py.

(** Truth value of a [str]: only the empty string is falsy. *)
Definition str_truthy (s : string) : bool :=
  match s with
  | EmptyString => false
  | String _ _ => true
  end.

(** Truth value of an [Optional[str]]: [None] and [""] are falsy. *)
Definition truthy (o : option string) : bool :=
  match o with
  | None => false
  | Some s => str_truthy s
  end.

(** [all([...])] over a list of strings. *)
Definition all (l : list string) : bool := forallb str_truthy l.

(** [str(n)] for an [int], as an f-string placeholder renders it. *)
Definition str_of_int (n : Z) : string :=
  NilZero.string_of_int (Z.to_int n).

(** An f-string placeholder holding an [Optional[str]]: [None] is rendered
    as the four letters of its name. *)
Definition format (o : option string) : string :=
  match o with
  | Some s => s
  | None => "None"
  end.

(** [x in s] for strings. *)
Fixpoint contains (x s : string) : bool :=
  if prefix x s then true
  else match s with
       | EmptyString => false
       | String _ s' => contains x s'
       end.

(** Newline and double quote, which a Rocq string literal cannot hold
    directly. *)
Definition nl : string := String "010" EmptyString.
Definition dquote : string := String "034" EmptyString.

End Py.

(** ** Data model *)

Inductive Role : Type := system | user | assistant.

Definition Role_eqb (a b : Role) : bool :=
  match a, b with
  | system, system | user, user | assistant, assistant => true
  | _, _ => false
  end.

(** A chat message is the dict [{"role": ..., "content": ...}].  The content
    is whatever the script stored, and the script stores the return value of
    an [Optional[str]] function, hence the [option]. *)
Record Message : Type := mkMessage {
  role : Role;
  content : option string
}.

Definition message (r : Role) (text : string) : Message :=
  mkMessage r (Some text).

(** The arguments of [client.chat.completions.create]. *)
Record Request : Type := mkRequest {
  model : string;
  messages : list Message;
  temperature : float;
  max_tokens : Z
}.

(** What one call does: it returns [response.choices[0].message.content],
    which the client types as an optional string, or an exception is raised
    inside the [try] block ([Raised] carries [str(e)]). *)
Inductive Outcome : Type :=
| Returned (content : option string)
| Raised (e : string).

Definition Client : Type := Request -> Outcome.

(** Status messages shown to the user.  [st_exception] is the report that
    Streamlit puts on the page when the script stops on an exception that
    nothing caught. *)
Inductive Display : Type :=
| st_error (msg : string)
| st_warning (msg : string)
| st_success (msg : string)
| st_exception.

Definition is_warning (d : Display) : bool :=
  match d with st_warning _ => true | _ => false end.

(** The observable effects of a piece of the script. *)
Record Trace : Type := mkTrace {
  shown : list Display;
  calls : list Request
}.

(** The seven options of the year-group select box. *)
Inductive YearGroup : Type :=
| Reception | Year1 | Year2 | Year3 | Year4 | Year5 | Year6.

(** The string the select box returns for each option. *)
Definition year_group_label (y : YearGroup) : string :=
  match y with
  | Reception => "Reception"
  | Year1 => "Year 1"
  | Year2 => "Year 2"
  | Year3 => "Year 3"
  | Year4 => "Year 4"
  | Year5 => "Year 5"
  | Year6 => "Year 6"
  end.

(** [st.session_state]: the two keys the script keeps there. *)
Record SessionState : Type := mkSession {
  generated_plan : option string;
  chat_history : list Message
}.

(** The two views of the page. *)
Inductive Phase : Type := Composing | Refining.

Definition phase (s : SessionState) : Phase :=
  if Py.truthy (generated_plan s) then Refining else Composing.

(** ** Prompt construction and the three client wrappers *)

Definition model_name : string := "gpt-4-turbo-preview".

Definition planner_system_prompt : string :=
  "You are an experienced educator with expertise in lesson planning.".

Definition chat_system_prompt : string :=
  "You are an expert educator helping to refine and improve lesson plans. Provide specific, actionable suggestions and be ready to modify the plan based on teacher requests.".

(** The f-string bound to [prompt] in [generate_lesson_plan_with_openai]. *)
Definition generation_prompt
    (enquiry_question year_group : string) (num_lessons : Z)
    (objectives active_learning adaptive_practices : string) : string :=
  Py.nl ++
  "    As an expert educator, create a detailed lesson plan for primary school children in "
    ++ year_group ++ "." ++ Py.nl ++
  "    Design a sequence of " ++ Py.str_of_int num_lessons
    ++ " lessons to address the enquiry question: "
    ++ Py.dquote ++ enquiry_question ++ Py.dquote ++ "." ++ Py.nl ++
  "    The lesson order has to be sequential, in order to build on the understanding of previous lessons." ++ Py.nl ++
  "    " ++ Py.nl ++
  "    Key Requirements:" ++ Py.nl ++
  "    1. Use Bloom's Taxonomy for learning objectives" ++ Py.nl ++
  "    2. Include active learning components" ++ Py.nl ++
  "    3. Incorporate adaptive teaching strategies" ++ Py.nl ++
  "    4. Ensure progression across lessons" ++ Py.nl ++
  "    " ++ Py.nl ++
  "    Specific Inputs:" ++ Py.nl ++
  "    - Learning Objectives: " ++ objectives ++ Py.nl ++
  "    - Active Learning Activities: " ++ active_learning ++ Py.nl ++
  "    - Adaptive Teaching Practices: " ++ adaptive_practices ++ Py.nl ++
  "    " ++ Py.nl ++
  "    For each lesson, provide:" ++ Py.nl ++
  "    1. Lesson Title & Learning Objective" ++ Py.nl ++
  "    2. Key Vocabulary" ++ Py.nl ++
  "    3. Main Activities (including timings)" ++ Py.nl ++
  "    4. Differentiation Strategies" ++ Py.nl ++
  "    5. Assessment Opportunities" ++ Py.nl ++
  "    6. Resources Needed" ++ Py.nl ++
  "    7. Home Learning Extensions" ++ Py.nl ++
  "    " ++ Py.nl ++
  "    Format the output using markdown for clear structure." ++ Py.nl ++
  "    ".

(** The f-string bound to [prompt] in [refine_lesson_plan_with_openai]. *)
Definition refinement_prompt (base_plan : option string) (user_comments : string)
    : string :=
  Py.nl ++
  "    You are an expert educator. Refine the following lesson plan based on the user's comments." ++ Py.nl ++
  "    " ++ Py.nl ++
  "    Base Lesson Plan:" ++ Py.nl ++
  "    " ++ Py.format base_plan ++ Py.nl ++
  "    " ++ Py.nl ++
  "    User Comments:" ++ Py.nl ++
  "    " ++ user_comments ++ Py.nl ++
  "    " ++ Py.nl ++
  "    Provide a revised lesson plan incorporating the user's feedback." ++ Py.nl ++
  "    ".

(** The keyword arguments the two planner wrappers pass to the client. *)
Definition planner_request (prompt : string) : Request :=
  {| model := model_name;
     messages := [message system planner_system_prompt; message user prompt];
     temperature := 0.7%float;
     max_tokens := 4000 |}.

Definition generation_request
    (enquiry_question year_group : string) (num_lessons : Z)
    (objectives active_learning adaptive_practices : string) : Request :=
  planner_request
    (generation_prompt enquiry_question year_group num_lessons
                       objectives active_learning adaptive_practices).

Definition refinement_request (base_plan : option string) (user_comments : string)
    : Request :=
  planner_request (refinement_prompt base_plan user_comments).

Definition chat_request (conversation_history : list Message) (user_input : string)
    : Request :=
  {| model := model_name;
     messages := ([message system chat_system_prompt]
                    ++ conversation_history
                    ++ [message user user_input])%list;
     temperature := 0.5%float;
     max_tokens := 2000 |}.

Section Wrappers.

Variable client : Client.

(** Lines 11-61.  On an exception the message goes to [st.error] and the
    function returns [None]. *)
Definition generate_lesson_plan_with_openai
    (enquiry_question year_group : string) (num_lessons : Z)
    (objectives active_learning adaptive_practices : string)
    : option string * Trace :=
  let request :=
    generation_request enquiry_question year_group num_lessons
                       objectives active_learning adaptive_practices in
  match client request with
  | Returned content => (content, mkTrace [] [request])
  | Raised e =>
      (None, mkTrace [st_error ("Error generating lesson plan: " ++ e)] [request])
  end.

(** Lines 63-90.  Same shape: [st.error] and [None] on an exception. *)
Definition refine_lesson_plan_with_openai
    (base_plan : option string) (user_comments : string)
    : option string * Trace :=
  let request := refinement_request base_plan user_comments in
  match client request with
  | Returned content => (content, mkTrace [] [request])
  | Raised e =>
      (None, mkTrace [st_error ("Error refining lesson plan: " ++ e)] [request])
  end.

(** Lines 92-109.  Here the exception text is the return value. *)
Definition get_chat_response
    (conversation_history : list Message) (user_input : string)
    : option string * Trace :=
  let request := chat_request conversation_history user_input in
  match client request with
  | Returned content => (content, mkTrace [] [request])
  | Raised e => (Some ("Error getting response: " ++ e), mkTrace [] [request])
  end.

End Wrappers.

(** ** The page script *)

(** The four buttons of the page.  A click on one of them triggers one run
    of the script in which that button, and no other, returns [True]. *)
Inductive Button : Type :=
| GenerateButton | SendButton | DownloadButton | NewPlanButton.

Definition Button_eqb (a b : Button) : bool :=
  match a, b with
  | GenerateButton, GenerateButton
  | SendButton, SendButton
  | DownloadButton, DownloadButton
  | NewPlanButton, NewPlanButton => true
  | _, _ => false
  end.

(** What the widgets return during one run: the form fields, the chat text
    area and the button that triggered the run. *)
Record Widgets : Type := mkWidgets {
  enquiry_question : string;
  adaptive_practices : string;
  year_group : YearGroup;
  objectives : string;
  active_learning : string;
  num_lessons : Z;
  user_input : string;
  clicked : option Button
}.

(** [st.button(...)] for button [b]. *)
Definition button (ui : Widgets) (b : Button) : bool :=
  match clicked ui with
  | Some b' => Button_eqb b b'
  | None => false
  end.

(** The same widget values in a run that no button triggered. *)
Definition no_click (ui : Widgets) : Widgets :=
  {| enquiry_question := enquiry_question ui;
     adaptive_practices := adaptive_practices ui;
     year_group := year_group ui;
     objectives := objectives ui;
     active_learning := active_learning ui;
     num_lessons := num_lessons ui;
     user_input := user_input ui;
     clicked := None |}.

(** The result of one run of the script: the session state it leaves, what
    it displayed, the client calls it made, and whether it ended by asking
    for a rerun ([st.rerun()], [st.experimental_rerun()]). *)
Record Run : Type := mkRun {
  state : SessionState;
  trace : Trace;
  rerun : bool
}.

Definition quiet : Trace := mkTrace [] [].

Definition fill_warning : string :=
  "⚠️ Please fill out all fields to generate a lesson plan!".

Definition generated_message : string :=
  "✅ Lesson plan generated successfully!".

(** Lines 156-159: a key is initialised only when the session does not have
    it yet.  Both keys are written by the same run, so a session either has
    none ([None]) or both. *)
Definition init_session_state (session : option SessionState) : SessionState :=
  match session with
  | None => {| generated_plan := None; chat_history := [] |}
  | Some s => s
  end.

Definition set_generated_plan (s : SessionState) (plan : option string)
    : SessionState :=
  {| generated_plan := plan; chat_history := chat_history s |}.

Definition append_chat_history (s : SessionState) (m : Message) : SessionState :=
  {| generated_plan := generated_plan s;
     chat_history := (chat_history s ++ [m])%list |}.

Section Script.

Variable client : Client.

(** Lines 163-220, the form view: the [Generate] button. *)
Definition form_view (s : SessionState) (ui : Widgets) : Run :=
  if button ui GenerateButton then
    if negb (Py.all [enquiry_question ui; objectives ui;
                     active_learning ui; adaptive_practices ui])
    then mkRun s (mkTrace [st_warning fill_warning] []) false
    else
      let '(plan, t) :=
        generate_lesson_plan_with_openai client
          (enquiry_question ui) (year_group_label (year_group ui))
          (num_lessons ui) (objectives ui) (active_learning ui)
          (adaptive_practices ui) in
      if Py.truthy plan
      then mkRun (set_generated_plan s plan)
                 (mkTrace (shown t ++ [st_success generated_message])%list
                          (calls t))
                 true
      else mkRun s t false
  else mkRun s quiet false.

(** Lines 229-231: the plan is put into an empty history. *)
Definition seed_history (s : SessionState) : SessionState :=
  match chat_history s with
  | [] => append_chat_history s (mkMessage assistant (generated_plan s))
  | _ :: _ => s
  end.

(** Lines 246-259: the [Send] button. *)
Definition send (s : SessionState) (ui : Widgets) : SessionState * Trace :=
  if button ui SendButton then
    if Py.str_truthy (user_input ui) then
      let s1 := append_chat_history s (message user (user_input ui)) in
      let '(refined_plan, t) :=
        refine_lesson_plan_with_openai client (generated_plan s1)
                                       (user_input ui) in
      let s2 := append_chat_history s1 (mkMessage assistant refined_plan) in
      (set_generated_plan s2 refined_plan, t)
    else (s, quiet)
  else (s, quiet).

(** Lines 262-268: the download button is handed the plan as its data and
    its return value is not used.  Streamlit takes text, bytes or a file
    there and raises when the data is [None]. *)
Definition download_button_raises (data : option string) : bool :=
  match data with
  | None => true
  | Some _ => false
  end.

(** Lines 224-273, the chat view: seeding, [Send], the download button,
    then the [Create New Plan] button.  When the download button raises,
    the script stops there: what was written to the session stays written,
    the exception is reported on the page, and the lines after it are not
    run. *)
Definition chat_view (s : SessionState) (ui : Widgets) : Run :=
  let s0 := seed_history s in
  let '(s1, t) := send s0 ui in
  if download_button_raises (generated_plan s1)
  then mkRun s1 (mkTrace (shown t ++ [st_exception])%list (calls t)) false
  else if button ui NewPlanButton
  then mkRun {| generated_plan := None; chat_history := [] |} t true
  else mkRun s1 t false.

(** Lines 111-275. *)
Definition main (session : option SessionState) (ui : Widgets) : Run :=
  let s := init_session_state session in
  if negb (Py.truthy (generated_plan s))
  then form_view s ui
  else chat_view s ui.

End Script.

(** ** Sessions *)

(** One user interaction: the widget values of the run it triggers and the
    behaviour of the client during that run. *)
Record Event : Type := mkEvent {
  ev_ui : Widgets;
  ev_client : Client
}.

(** One interaction from the user's point of view: the run it triggers and,
    when that run ends with a rerun request, the run that follows without
    any button pressed.  The session state the user next acts on is the
    state after both. *)
Definition interact (s : SessionState) (ev : Event) : SessionState :=
  let r := main (ev_client ev) (Some s) (ev_ui ev) in
  if rerun r
  then state (main (ev_client ev) (Some (state r)) (no_click (ev_ui ev)))
  else state r.

(** The client calls made during one interaction. *)
Definition interact_calls (s : SessionState) (ev : Event) : list Request :=
  let r := main (ev_client ev) (Some s) (ev_ui ev) in
  if rerun r
  then (calls (trace r)
        ++ calls (trace (main (ev_client ev) (Some (state r))
                              (no_click (ev_ui ev)))))%list
  else calls (trace r).

(** The state of a session that has just been opened: the first run, which
    no button triggered, only initialises the two keys. *)
Definition session_start : SessionState := init_session_state None.

Definition run_session (evs : list Event) : SessionState :=
  fold_left interact evs session_start.

(** The states a session can be in between two interactions. *)
Inductive reachable : SessionState -> Prop :=
| reachable_start : reachable session_start
| reachable_interact (s : SessionState) (ev : Event) :
    reachable s -> reachable (interact s ev).

(** A [Generate] click on a valid form that the client answers with
    non-empty text. *)
Definition generated (ev : Event) (text : string) : Prop :=
  clicked (ev_ui ev) = Some GenerateButton /\
  Py.all [enquiry_question (ev_ui ev); objectives (ev_ui ev);
          active_learning (ev_ui ev); adaptive_practices (ev_ui ev)] = true /\
  ev_client ev
    (generation_request
       (enquiry_question (ev_ui ev)) (year_group_label (year_group (ev_ui ev)))
       (num_lessons (ev_ui ev)) (objectives (ev_ui ev))
       (active_learning (ev_ui ev)) (adaptive_practices (ev_ui ev)))
  = Returned (Some text) /\
  text <> "".

(** A [Send] click with non-empty text, made in the chat view, that the
    client answers with [text]. *)
Definition refined (s : SessionState) (ev : Event) (text : string) : Prop :=
  phase s = Refining /\
  clicked (ev_ui ev) = Some SendButton /\
  user_input (ev_ui ev) <> "" /\
  ev_client ev (refinement_request (generated_plan s) (user_input (ev_ui ev)))
  = Returned (Some text).

(** [round_trips s n s']: [n] refinement round trips lead from [s] to [s']. *)
Inductive round_trips (s : SessionState) : nat -> SessionState -> Prop :=
| round_trips_O : round_trips s 0 s
| round_trips_S (n : nat) (s' : SessionState) (ev : Event) (text : string) :
    round_trips s n s' ->
    refined s' ev text ->
    round_trips s (S n) (interact s' ev).

(** The history entries of a list of turns, a turn being the user's text
    and the text the client answered: a user entry and an assistant entry
    per turn, in order. *)
Definition turn_entries (turns : list (string * string)) : list Message :=
  flat_map (fun t => [message user (fst t); message assistant (snd t)]) turns.

(** [chat_log s turns s']: the round trips that lead from [s] to [s'], with
    what was submitted and what was answered in each. *)
Inductive chat_log (s : SessionState)
    : list (string * string) -> SessionState -> Prop :=
| chat_log_nil : chat_log s [] s
| chat_log_snoc (turns : list (string * string)) (s' : SessionState)
    (ev : Event) (text : string) :
    chat_log s turns s' ->
    refined s' ev text ->
    chat_log s (turns ++ [(user_input (ev_ui ev), text)]) (interact s' ev).

(** The content of the last assistant entry of a history, if there is one. *)
Definition last_assistant (h : list Message) : option (option string) :=
  match find (fun m => Role_eqb (role m) assistant) (rev h) with
  | Some m => Some (content m)
  | None => None
  end.

(** ** Stubs and sample inputs used by the examples *)

Definition stub (o : Outcome) : Client := fun _ => o.

Definition leaves_form (b : option Button) : Widgets :=
  {| enquiry_question := "Why do leaves change color?";
     adaptive_practices := "...";
     year_group := Year3;
     objectives := "...";
     active_learning := "...";
     num_lessons := 3;
     user_input := "";
     clicked := b |}.

Definition chat_form (text : string) (b : option Button) : Widgets :=
  {| enquiry_question := "";
     adaptive_practices := "";
     year_group := Reception;
     objectives := "";
     active_learning := "";
     num_lessons := 3;
     user_input := text;
     clicked := b |}.

Definition press_generate (o : Outcome) : Event :=
  mkEvent (leaves_form (Some GenerateButton)) (stub o).

Definition press_send (text : string) (o : Outcome) : Event :=
  mkEvent (chat_form text (Some SendButton)) (stub o).

Definition press_new_plan : Event :=
  mkEvent (chat_form "" (Some NewPlanButton)) (stub (Raised "unused")).

(** Sessions used as concrete examples below. *)

(** A plan was generated and refined once. *)
Definition session_refined_once : SessionState :=
  run_session [press_generate (Returned (Some "PLAN_V1"));
               press_send "add more group work" (Returned (Some "PLAN_V2"))].

(** A plan was generated and is shown in the chat view. *)
Definition session_with_plan : SessionState :=
  run_session [press_generate (Returned (Some "PLAN_V1"))].

(** A plan was generated, then a refinement call failed. *)
Definition session_after_failed_refinement : SessionState :=
  run_session [press_generate (Returned (Some "PLAN_V1"));
               press_send "add more group work" (Raised "timeout")].

(** The client answered the first generation with empty text. *)
Definition session_empty_answer : SessionState :=
  interact session_start (press_generate (Returned (Some ""))).

(** A second plan was generated after the failed refinement. *)
Definition session_regenerated : SessionState :=
  interact session_after_failed_refinement (press_generate (Returned (Some "PLAN_V3"))).

(** ... and that second plan was refined once. *)
Definition session_regenerated_refined : SessionState :=
  interact session_regenerated (press_send "make it shorter" (Returned (Some "PLAN_V4"))).

(** A chat made of submissions that a stubbed client answers: each turn is
    the user's text and the text the client returns for it. *)
Definition chat_events (turns : list (string * string)) : list Event :=
  map (fun t => press_send (fst t) (Returned (Some (snd t)))) turns.

(** The run in which the refinement of [session_with_plan] fails. *)
Definition failed_refinement_run : Run :=
  main (stub (Raised "timeout")) (Some session_with_plan)
       (chat_form "add more group work" (Some SendButton)).

(** The run in which the user's chat submission is answered. *)
Definition chat_submission_run : Run :=
  main (stub (Returned (Some "PLAN_V2"))) (Some session_with_plan)
       (chat_form "add more group work" (Some SendButton)).

(** The two call shapes: the keyword arguments of the planner wrappers and
    those of [get_chat_response]. *)
Definition planner_shape (q : Request) : Prop :=
  temperature q = 0.7%float /\ max_tokens q = 4000%Z.

Definition chat_shape (q : Request) : Prop :=
  temperature q = 0.5%float /\ max_tokens q = 2000%Z.

(** ** The session invariant *)

(** In a state the user can act on, a history is either empty, and then no
    plan is on display, or it starts with a seeded assistant entry holding
    non-empty text; and no entry is a system message. *)
Definition seeded (s : SessionState) : Prop :=
  match chat_history s with
  | [] => Py.truthy (generated_plan s) = false
  | m :: _ => role m = assistant /\ Py.truthy (content m) = true
  end.

Definition no_system_entry (h : list Message) : Prop :=
  Forall (fun m => role m <> system) h.

Definition session_inv (s : SessionState) : Prop :=
  seeded s /\ no_system_entry (chat_history s).

(** ** Further definitions: the shape of a history, and its rendering *)

(** The role that follows [r] in a conversation. *)
Definition next_role (r : Role) : Role :=
  match r with
  | assistant => user
  | user => assistant
  | system => system
  end.

(** [alternates r h]: the roles of [h] are [r], [next_role r], [r], ... *)
Fixpoint alternates (r : Role) (h : list Message) : bool :=
  match h with
  | [] => true
  | m :: h' => Role_eqb (role m) r && alternates (next_role r) h'
  end.

(** A request of the planner wrappers: the fixed system message followed by
    one user message. *)
Definition is_planner_request (q : Request) : Prop :=
  exists prompt : string, q = planner_request prompt.

(** Lines 234-243: the block that [st.markdown] receives for one history
    entry.  The test is [role == "user"]; every other role takes the
    [else] branch. *)
Definition render_message (m : Message) : string :=
  if Role_eqb (role m) user
  then "<div class=" ++ Py.dquote ++ "chat-message user-message" ++ Py.dquote
       ++ ">👤 You: " ++ Py.format (content m) ++ "</div>"
  else "<div class=" ++ Py.dquote ++ "chat-message assistant-message" ++ Py.dquote
       ++ ">🤖 Assistant: " ++ Py.format (content m) ++ "</div>".

(** What the chat view displays for a session: one block per entry of the
    history, after the seeding of lines 230-231 and before [Send] is
    handled. *)
Definition render_chat_history (s : SessionState) : list string :=
  map render_message (chat_history (seed_history s)).

(** The opening tag of a block rendered for a user entry. *)
Definition user_block_open : string :=
  "<div class=" ++ Py.dquote ++ "chat-message user-message" ++ Py.dquote ++ ">".

(** A form whose four text areas hold a single space. *)
Definition blank_form (b : option Button) : Widgets :=
  {| enquiry_question := " ";
     adaptive_practices := " ";
     year_group := Reception;
     objectives := " ";
     active_learning := " ";
     num_lessons := 1;
     user_input := "";
     clicked := b |}.

(** * Properties *)

(** ** Python primitives *)

Lemma str_truthy_true (s : string) : Py.str_truthy s = true <-> s <> "".
Proof.
  destruct s; simpl; split; intro H; congruence.
Qed.

Lemma prefix_app (x s : string) : prefix x (x ++ s) = true.
Proof.
  induction x as [|c x IH]; simpl.
  - now destruct s.
  - destruct (ascii_dec c c) as [_|N]; [exact IH | now contradiction N].
Qed.

Lemma contains_eq (x s : string) :
  Py.contains x s =
  if prefix x s then true
  else match s with
       | EmptyString => false
       | String _ s' => Py.contains x s'
       end.
Proof. destruct s; reflexivity. Qed.

Lemma contains_here (x s : string) : Py.contains x (x ++ s) = true.
Proof. now rewrite contains_eq, prefix_app. Qed.

Lemma contains_skip (x p s : string) :
  Py.contains x s = true -> Py.contains x (p ++ s) = true.
Proof.
  intro H. induction p as [|c p IH]; [exact H|].
  change (String c p ++ s) with (String c (p ++ s)).
  rewrite contains_eq, IH. now destruct (prefix x (String c (p ++ s))).
Qed.

Lemma substring_rest (t : string) : substring 0 (String.length t) t = t.
Proof. induction t as [|b t IH]; simpl; [reflexivity | now rewrite IH]. Qed.

Lemma prefix_split (x t : string) :
  prefix x t = true ->
  t = x ++ substring (String.length x) (String.length t - String.length x) t.
Proof.
  revert t. induction x as [|a x IH]; intros t P.
  - simpl. now rewrite Nat.sub_0_r, substring_rest.
  - destruct t as [|b t]; [discriminate|]. simpl in P.
    destruct (ascii_dec a b) as [->|]; [|discriminate].
    simpl. f_equal. now apply IH.
Qed.

(** [contains] finds exactly the substrings. *)
Lemma contains_iff (x s : string) :
  Py.contains x s = true <-> exists pre post, s = pre ++ x ++ post.
Proof.
  split.
  - induction s as [|c s IH]; rewrite contains_eq.
    + destruct (prefix x "") eqn:P; [|discriminate]. intros _.
      exists "", "". destruct x; [reflexivity | discriminate].
    + destruct (prefix x (String c s)) eqn:P.
      * intros _. exists "". eexists. simpl append at 1.
        apply prefix_split, P.
      * intro H. destruct (IH H) as (pre & post & ->).
        now exists (String c pre), post.
  - intros (pre & post & ->). apply contains_skip, contains_here.
Qed.

Ltac find_placeholder :=
  repeat first [ apply contains_here | apply contains_skip ].

(** ** Phases *)

Lemma phase_Composing (s : SessionState) :
  phase s = Composing <-> Py.truthy (generated_plan s) = false.
Proof.
  unfold phase. destruct (Py.truthy (generated_plan s)); split; congruence.
Qed.

Lemma phase_Refining (s : SessionState) :
  phase s = Refining <-> Py.truthy (generated_plan s) = true.
Proof.
  unfold phase. destruct (Py.truthy (generated_plan s)); split; congruence.
Qed.

Lemma button_clicked (ui : Widgets) (b b' : Button) :
  clicked ui = Some b -> button ui b' = Button_eqb b' b.
Proof. unfold button. now intros ->. Qed.

Lemma main_Composing (client : Client) (session : option SessionState)
    (ui : Widgets) :
  phase (init_session_state session) = Composing ->
  main client session ui = form_view client (init_session_state session) ui.
Proof.
  intro H. apply phase_Composing in H. unfold main. now rewrite H.
Qed.

Lemma main_Refining (client : Client) (s : SessionState) (ui : Widgets) :
  phase s = Refining ->
  main client (Some s) ui = chat_view client s ui.
Proof.
  intro H. apply phase_Refining in H. unfold main. simpl. now rewrite H.
Qed.

(** ** One run of the script *)

Section Runs.

Variable client : Client.

(** The form view either leaves the session as it is, or stores a
    non-empty plan and asks for a rerun.  It never touches the history and
    calls the client with the generation request only. *)
Lemma form_view_cases (s : SessionState) (ui : Widgets) :
  let r := form_view client s ui in
  (state r = s /\ rerun r = false) \/
  (exists text, text <> "" /\
                state r = set_generated_plan s (Some text) /\
                rerun r = true).
Proof.
  unfold form_view, generate_lesson_plan_with_openai.
  destruct (button ui GenerateButton); [|now left].
  destruct (negb _); [now left|].
  destruct (client _) as [[text|]|e]; simpl; [|now left|now left].
  destruct (Py.str_truthy text) eqn:T; [right | now left].
  exists text. now rewrite <- str_truthy_true.
Qed.

(** A valid form that the client answers with non-empty text. *)
Lemma form_view_generated (s : SessionState) (ui : Widgets) (text : string) :
  generated (mkEvent ui client) text ->
  form_view client s ui =
  mkRun (set_generated_plan s (Some text))
        (mkTrace [st_success generated_message]
                 [generation_request
                    (enquiry_question ui) (year_group_label (year_group ui))
                    (num_lessons ui) (objectives ui) (active_learning ui)
                    (adaptive_practices ui)])
        true.
Proof.
  intros (C & V & R & T). cbn [ev_ui ev_client] in C, V, R.
  unfold form_view, generate_lesson_plan_with_openai.
  rewrite (button_clicked _ _ _ C), V, R. simpl.
  apply str_truthy_true in T. now rewrite T.
Qed.

Lemma seed_history_nonempty (s : SessionState) :
  chat_history s <> [] -> seed_history s = s.
Proof. unfold seed_history. now destruct (chat_history s). Qed.

Lemma seed_history_empty (s : SessionState) :
  chat_history s = [] ->
  seed_history s =
  {| generated_plan := generated_plan s;
     chat_history := [mkMessage assistant (generated_plan s)] |}.
Proof.
  unfold seed_history, append_chat_history. now intros ->.
Qed.

(** What [Send] does to the session: nothing, or two appended entries and
    a replaced plan. *)
Lemma send_cases (s : SessionState) (ui : Widgets) :
  send client s ui = (s, quiet) \/
  exists refined_plan t,
    user_input ui <> "" /\
    send client s ui =
    ({| generated_plan := refined_plan;
        chat_history := (chat_history s
                         ++ [message user (user_input ui);
                             mkMessage assistant refined_plan])%list |}, t).
Proof.
  unfold send.
  destruct (button ui SendButton); [|now left].
  destruct (Py.str_truthy (user_input ui)) eqn:T; [right | now left].
  apply str_truthy_true in T.
  destruct (refine_lesson_plan_with_openai _ _ _) as [refined_plan t].
  exists refined_plan, t. split; [exact T|].
  unfold set_generated_plan, append_chat_history. simpl.
  now rewrite <- app_assoc.
Qed.

Lemma send_not_clicked (s : SessionState) (ui : Widgets) :
  button ui SendButton = false -> send client s ui = (s, quiet).
Proof. unfold send. now intros ->. Qed.

(** The state a run of the chat view leaves: the reset state, with a rerun,
    or the state after [Send]. *)
Lemma chat_view_state (s : SessionState) (ui : Widgets) :
  (button ui NewPlanButton = true /\
   rerun (chat_view client s ui) = true /\
   state (chat_view client s ui)
   = {| generated_plan := None; chat_history := [] |}) \/
  (rerun (chat_view client s ui) = false /\
   state (chat_view client s ui) = fst (send client (seed_history s) ui) /\
   (generated_plan (fst (send client (seed_history s) ui)) = None \/
    button ui NewPlanButton = false)).
Proof.
  unfold chat_view. destruct (send client (seed_history s) ui) as [s1 t].
  cbn [fst]. destruct (generated_plan s1); cbn.
  - destruct (button ui NewPlanButton); [left | right]; repeat split.
    now right.
  - right. repeat split. now left.
Qed.

(** While the plan is some text, the download button does not raise and
    the chat view ends as its last lines say. *)
Lemma chat_view_with_plan (s : SessionState) (ui : Widgets) :
  generated_plan (fst (send client (seed_history s) ui)) <> None ->
  chat_view client s ui =
  if button ui NewPlanButton
  then mkRun {| generated_plan := None; chat_history := [] |}
             (snd (send client (seed_history s) ui)) true
  else mkRun (fst (send client (seed_history s) ui))
             (snd (send client (seed_history s) ui)) false.
Proof.
  unfold chat_view. destruct (send client (seed_history s) ui) as [s1 t].
  cbn [fst snd]. destruct (generated_plan s1); [reflexivity | now intros []].
Qed.

Lemma chat_view_no_click (s : SessionState) (ui : Widgets) :
  generated_plan s <> None ->
  chat_view client s (no_click ui) = mkRun (seed_history s) quiet false.
Proof.
  intro N. unfold chat_view. rewrite send_not_clicked by reflexivity.
  unfold seed_history at 1. destruct (chat_history s); cbn;
    now destruct (generated_plan s).
Qed.

(** The calls of a chat view are those of its [Send]. *)
Lemma chat_view_calls_send (s : SessionState) (ui : Widgets) :
  calls (trace (chat_view client s ui))
  = calls (snd (send client (seed_history s) ui)).
Proof.
  unfold chat_view. destruct (send client (seed_history s) ui) as [s1 t].
  destruct (download_button_raises _); [reflexivity|].
  now destruct (button ui NewPlanButton).
Qed.

Lemma seed_history_plan (s : SessionState) :
  generated_plan (seed_history s) = generated_plan s.
Proof. unfold seed_history. now destruct (chat_history s). Qed.

Lemma truthy_not_None (o : option string) : Py.truthy o = true -> o <> None.
Proof. now destruct o. Qed.

End Runs.

(** ** The invariant holds in every reachable state *)

Lemma session_start_inv : session_inv session_start.
Proof. split; [reflexivity | constructor]. Qed.

(** The history after an interaction: emptied by a reset or by nothing else,
    and otherwise an extension of the history before, seeded first when it
    was empty. *)
Lemma interact_history (s : SessionState) (ev : Event) :
  chat_history (interact s ev) = [] \/
  exists plan more,
    Forall (fun m => role m <> system) more /\
    chat_history (interact s ev) =
    (match chat_history s with
     | [] => [mkMessage assistant plan]
     | _ :: _ => chat_history s
     end ++ more)%list /\
    (chat_history s = [] -> Py.truthy plan = true).
Proof.
  destruct ev as [ui client]. unfold interact, main. simpl.
  destruct (Py.truthy (generated_plan s)) eqn:G; simpl.
  - (* chat view *)
    destruct (chat_view_state client s ui) as [(_ & R & E)|(R & E & _)];
      rewrite R, E; [now left|].
    destruct (send_cases client (seed_history s) ui) as [E'|(p & t & _ & E')];
      rewrite E'; simpl; right;
      unfold seed_history; destruct (chat_history s) eqn:H; simpl.
    + exists (generated_plan s), []. rewrite H. simpl.
      repeat split; auto.
    + exists None, []. rewrite H, app_nil_r. repeat split; auto; discriminate.
    + exists (generated_plan s), [message user (user_input ui); mkMessage assistant p].
      rewrite H. simpl. repeat split; auto.
      repeat constructor; simpl; discriminate.
    + exists None, [message user (user_input ui); mkMessage assistant p].
      rewrite H. repeat split; try discriminate.
      repeat constructor; simpl; discriminate.
  - (* form view, possibly followed by the first chat view *)
    destruct (form_view_cases client s ui) as [(E & R)|(text & T & E & R)];
      simpl in E, R; rewrite R.
    + rewrite E. destruct (chat_history s) eqn:H; [now left|right].
      exists None, []. rewrite app_nil_r. repeat split; auto; discriminate.
    + rewrite E. apply str_truthy_true in T. simpl. rewrite T. simpl.
      rewrite chat_view_no_click by discriminate. cbn [state].
      right. unfold seed_history. simpl.
      destruct (chat_history s) eqn:H; simpl.
      * exists (Some text), []. rewrite H. simpl. repeat split; auto.
      * exists None, []. rewrite H, app_nil_r. repeat split; auto; discriminate.
Qed.

(** After an interaction an empty history means that no plan is on display:
    either the script stayed on the form, or the plan was just reset. *)
Lemma interact_empty_history (s : SessionState) (ev : Event) :
  chat_history (interact s ev) = [] ->
  Py.truthy (generated_plan (interact s ev)) = false.
Proof.
  destruct ev as [ui client]. unfold interact, main. simpl.
  destruct (Py.truthy (generated_plan s)) eqn:G; simpl.
  - destruct (chat_view_state client s ui) as [(_ & R & E)|(R & E & _)];
      rewrite R, E; [reflexivity|].
    destruct (send_cases client (seed_history s) ui) as [E'|(p & t & _ & E')];
      rewrite E'; simpl.
    + unfold seed_history. destruct (chat_history s) eqn:H; simpl;
        rewrite H; discriminate.
    + intro H. now apply app_eq_nil in H.
  - destruct (form_view_cases client s ui) as [(E & R)|(text & T & E & R)];
      simpl in E, R; rewrite R, E.
    + now intros _.
    + apply str_truthy_true in T. simpl. rewrite T. simpl.
      rewrite chat_view_no_click by discriminate. cbn [state].
      unfold seed_history. simpl. destruct (chat_history s) eqn:H; simpl;
        rewrite H; discriminate.
Qed.

Lemma interact_inv (s : SessionState) (ev : Event) :
  session_inv s -> session_inv (interact s ev).
Proof.
  intros [S N]. unfold session_inv, seeded, no_system_entry in *.
  pose proof (interact_empty_history s ev) as E.
  destruct (interact_history s ev) as [H|(plan & more & M & H & P)].
  - rewrite H. split; [auto | constructor].
  - rewrite H. destruct (chat_history s) as [|m h] eqn:C; simpl.
    + split; [split; auto|]. constructor; [simpl; discriminate | exact M].
    + split; [exact S|].
      change (Forall (fun m => role m <> system) ((m :: h) ++ more)%list).
      apply Forall_app. now split.
Qed.

Lemma reachable_inv (s : SessionState) : reachable s -> session_inv s.
Proof.
  induction 1 as [|s ev _ IH]; [apply session_start_inv | now apply interact_inv].
Qed.

(** In the chat view of a reachable state the history is already seeded. *)
Lemma reachable_Refining_seeded (s : SessionState) :
  reachable s -> phase s = Refining -> chat_history s <> [].
Proof.
  intros R P. apply reachable_inv in R. destruct R as [S _].
  apply phase_Refining in P. unfold seeded in S.
  destruct (chat_history s); [congruence | discriminate].
Qed.

Lemma run_session_snoc (evs : list Event) (ev : Event) :
  run_session (evs ++ [ev]) = interact (run_session evs) ev.
Proof. unfold run_session. now rewrite fold_left_app. Qed.

Lemma run_session_reachable (evs : list Event) : reachable (run_session evs).
Proof.
  induction evs as [|ev evs IH] using rev_ind.
  - apply reachable_start.
  - rewrite run_session_snoc. now apply reachable_interact.
Qed.

(** ** The two successful transitions *)

(** A successful generation on the form stores the plan and, on the rerun,
    puts it into the history when the history is empty. *)
Lemma interact_generated (s : SessionState) (ev : Event) (text : string) :
  phase s = Composing ->
  generated ev text ->
  interact s ev = seed_history (set_generated_plan s (Some text)).
Proof.
  intros P G. destruct ev as [ui client].
  pose proof G as (_ & _ & _ & T). apply str_truthy_true in T.
  unfold interact. cbn [ev_ui ev_client].
  rewrite main_Composing by exact P. cbn [init_session_state].
  rewrite (form_view_generated client s ui text G). cbn [rerun state].
  rewrite main_Refining by (apply phase_Refining; exact T).
  now rewrite chat_view_no_click by discriminate.
Qed.

(** A refinement round trip in a seeded chat view appends the user's text
    and the client's answer, and the answer becomes the plan. *)
Lemma interact_refined (s : SessionState) (ev : Event) (text : string) :
  chat_history s <> [] ->
  refined s ev text ->
  interact s ev =
  {| generated_plan := Some text;
     chat_history := (chat_history s
                      ++ [message user (user_input (ev_ui ev));
                          message assistant text])%list |}.
Proof.
  intros H (P & C & U & R). destruct ev as [ui client].
  cbn [ev_ui ev_client] in *. apply str_truthy_true in U.
  unfold interact. cbn [ev_ui ev_client].
  rewrite main_Refining by exact P.
  unfold chat_view, send. rewrite (seed_history_nonempty s H).
  rewrite !(button_clicked _ _ _ C). cbn [Button_eqb]. rewrite U.
  unfold refine_lesson_plan_with_openai. cbn [append_chat_history generated_plan].
  rewrite R. cbn. unfold set_generated_plan, append_chat_history. cbn.
  now rewrite <- app_assoc.
Qed.

Lemma last_assistant_snoc (h : list Message) (c : option string) :
  last_assistant (h ++ [mkMessage assistant c]) = Some c.
Proof. unfold last_assistant. now rewrite rev_app_distr. Qed.

Lemma button_true (ui : Widgets) (b : Button) :
  button ui b = true -> clicked ui = Some b.
Proof.
  unfold button. destruct (clicked ui) as [b'|]; [|discriminate].
  destruct b, b'; simpl; congruence.
Qed.

Lemma form_view_outcome (client : Client) (s : SessionState) (ui : Widgets) :
  (state (form_view client s ui) = s /\ rerun (form_view client s ui) = false) \/
  exists text : string,
    generated (mkEvent ui client) text /\
    state (form_view client s ui) = set_generated_plan s (Some text) /\
    rerun (form_view client s ui) = true.
Proof.
  unfold form_view, generate_lesson_plan_with_openai.
  destruct (button ui GenerateButton) eqn:B; [|now left].
  apply button_true in B.
  destruct (Py.all _) eqn:V; cbn [negb]; [|now left].
  destruct (client _) as [[text|]|e] eqn:F; cbn; [|now left|now left].
  destruct (Py.str_truthy text) eqn:T; cbn; [right | now left].
  exists text. apply str_truthy_true in T. repeat split; assumption.
Qed.

(** Out of the form: either nothing changes, or a generation succeeded. *)
Lemma interact_Composing_cases (s : SessionState) (ev : Event) :
  phase s = Composing ->
  interact s ev = s \/
  exists text : string,
    generated ev text /\
    interact s ev = seed_history (set_generated_plan s (Some text)).
Proof.
  intro P. destruct ev as [ui client].
  destruct (form_view_outcome client s ui) as [(E & R)|(text & G & _ & _)].
  - left. unfold interact. cbn [ev_ui ev_client].
    rewrite main_Composing by exact P. cbn [init_session_state].
    now rewrite R.
  - right. exists text. split; [exact G|].
    now apply interact_generated.
Qed.

Lemma reachable_empty_Composing (s : SessionState) :
  reachable s -> chat_history s = [] -> phase s = Composing.
Proof.
  intros R E. destruct (reachable_inv s R) as [S _].
  unfold seeded in S. rewrite E in S. now apply phase_Composing.
Qed.

Lemma reachable_run_session (s : SessionState) :
  reachable s -> exists evs : list Event, s = run_session evs.
Proof.
  induction 1 as [|s ev _ (evs & ->)].
  - now exists [].
  - exists (evs ++ [ev])%list. now rewrite run_session_snoc.
Qed.

(** A history that is not empty was seeded by a generation: somewhere in
    the session there is a [Generate] click, made on the form over an empty
    history and answered with non-empty text, that left that text as the
    plan and as the only entry of the history; the history was not emptied
    since; and its first entry still is that text. *)
Lemma seeded_by_generation (evs : list Event) :
  chat_history (run_session evs) <> [] ->
  exists (before : list Event) (ev : Event) (after : list Event)
         (text : string),
    evs = (before ++ ev :: after)%list /\
    phase (run_session before) = Composing /\
    chat_history (run_session before) = [] /\
    generated ev text /\
    run_session (before ++ [ev])
    = {| generated_plan := Some text;
         chat_history := [message assistant text] |} /\
    (forall k : nat,
        k <= length after ->
        chat_history (run_session (before ++ ev :: firstn k after)) <> []) /\
    hd_error (chat_history (run_session evs)) = Some (message assistant text).
Proof.
  induction evs as [|ev' evs IH] using rev_ind; [now intros []|].
  rewrite run_session_snoc. intro H.
  destruct (chat_history (run_session evs)) as [|m h] eqn:E.
  - pose proof (reachable_empty_Composing _ (run_session_reachable evs) E) as P.
    destruct (interact_Composing_cases _ ev' P) as [N|(text & G & N)].
    + rewrite N in H. contradiction.
    + rewrite seed_history_empty in N by exact E. cbn in N.
      exists evs, ev', [], text.
      split; [reflexivity|]. split; [exact P|]. split; [exact E|].
      split; [exact G|]. split; [now rewrite run_session_snoc|].
      split.
      * intros k _. rewrite firstn_nil, run_session_snoc, N. discriminate.
      * now rewrite N.
  - destruct IH as (before & ev & after & text & -> & P & B & G & S & K & F);
      [discriminate|].
    exists before, ev, (after ++ [ev'])%list, text.
    split; [now rewrite <- app_assoc|].
    split; [exact P|]. split; [exact B|]. split; [exact G|].
    split; [exact S|]. split.
    + intros k L. rewrite length_app in L. cbn in L.
      destruct (Nat.le_gt_cases k (length after)) as [Le|Gt].
      * rewrite firstn_app. replace (k - length after) with 0 by lia.
        rewrite firstn_O, app_nil_r. now apply K.
      * rewrite firstn_all2 by (rewrite length_app; cbn; lia).
        change (before ++ ev :: after ++ [ev'])%list
          with (before ++ (ev :: after) ++ [ev'])%list.
        now rewrite app_assoc, run_session_snoc.
    + destruct (interact_history (run_session (before ++ ev :: after)) ev')
        as [Z|(plan & more & _ & Z & _)]; [contradiction|].
      rewrite E in Z. rewrite Z. exact F.
Qed.

(** * The claims *)

(** ** C1: a failed refinement call *)

(** C1, as stated, fails.  When the refinement call of a chat submission
    raises, the text of the failure is not what ends up in the session: in
    the run [failed_refinement_run] the plan is absent afterwards and the
    last history entry is an assistant entry without content, so neither of
    them is any message text. *)
Lemma refine_failure_message_not_folded :
  generated_plan (state failed_refinement_run) = None /\
  last (chat_history (state failed_refinement_run)) (mkMessage system None)
  = mkMessage assistant None /\
  ~ (exists msg : string,
        generated_plan (state failed_refinement_run) = Some msg \/
        last (chat_history (state failed_refinement_run)) (mkMessage system None)
        = message assistant msg).
Proof.
  repeat split; try reflexivity.
  intros (msg & [H|H]); vm_compute in H; discriminate.
Qed.

(** C1, amended.  In the chat view of a reachable session, when the client
    call made for a non-empty chat submission raises, the failure message
    goes to [st.error] and is not stored.  The refinement wrapper returns no
    text and shows "Error refining lesson plan: " followed by the message;
    that is the first thing the run displays.  The user's text is appended
    to the history, and the failure message, with or without the prefix, is
    neither the content of an entry appended after it nor the plan. *)
Theorem refine_failure_is_displayed_not_stored :
  forall (s : SessionState) (client : Client) (ui : Widgets) (e : string),
    reachable s ->
    phase s = Refining ->
    clicked ui = Some SendButton ->
    user_input ui <> "" ->
    client (refinement_request (generated_plan s) (user_input ui)) = Raised e ->
    let failure := "Error refining lesson plan: " ++ e in
    let request := refinement_request (generated_plan s) (user_input ui) in
    let r := main client (Some s) ui in
    refine_lesson_plan_with_openai client (generated_plan s) (user_input ui)
    = (None, mkTrace [st_error failure] [request]) /\
    hd_error (shown (trace r)) = Some (st_error failure) /\
    calls (trace r) = [request] /\
    (exists added : list Message,
        chat_history (state r)
        = (chat_history s ++ message user (user_input ui) :: added)%list /\
        Forall (fun m => content m <> Some failure /\ content m <> Some e)
               added) /\
    generated_plan (state r) <> Some failure /\
    generated_plan (state r) <> Some e.
Proof.
  intros s client ui e Rs P C U F failure request r.
  pose proof (reachable_Refining_seeded s Rs P) as H.
  apply str_truthy_true in U.
  assert (W : refine_lesson_plan_with_openai client (generated_plan s)
                                             (user_input ui)
              = (None, mkTrace [st_error failure] [request])).
  { unfold refine_lesson_plan_with_openai, request, failure. now rewrite F. }
  split; [exact W|].
  subst r. rewrite main_Refining by exact P.
  unfold chat_view, send. rewrite (seed_history_nonempty s H).
  rewrite !(button_clicked _ _ _ C). cbn [Button_eqb]. rewrite U.
  cbn [append_chat_history generated_plan]. rewrite W. cbn.
  repeat split; try discriminate.
  exists [mkMessage assistant None]. split.
  - now rewrite <- app_assoc.
  - repeat constructor; discriminate.
Qed.

Lemma refine_failure_is_displayed_not_stored_witness :
  reachable session_with_plan /\
  phase session_with_plan = Refining /\
  refine_lesson_plan_with_openai (stub (Raised "timeout"))
    (generated_plan session_with_plan) "add more group work"
  = (None,
     mkTrace [st_error "Error refining lesson plan: timeout"]
             [refinement_request (Some "PLAN_V1") "add more group work"]) /\
  hd_error (shown (trace failed_refinement_run))
  = Some (st_error "Error refining lesson plan: timeout") /\
  generated_plan (state failed_refinement_run)
  <> Some "Error refining lesson plan: timeout".
Proof.
  assert (R : reachable session_with_plan) by apply run_session_reachable.
  split; [exact R|]. split; [reflexivity|].
  assert (U : user_input (chat_form "add more group work" (Some SendButton))
              <> "") by discriminate.
  destruct (refine_failure_is_displayed_not_stored
              session_with_plan (stub (Raised "timeout"))
              (chat_form "add more group work" (Some SendButton)) "timeout"
              R eq_refl eq_refl U eq_refl) as (W & D & _ & _ & N & _).
  split; [exact W|]. split; [exact D | exact N].
Defined.

(** ** C2: the length of the history after N round trips *)

(** Round trips exist for every [n]: a chat whose submissions are non-empty
    and answered with non-empty text is a sequence of as many round trips
    as it has turns. *)
Lemma chat_events_round_trips (s : SessionState)
    (turns : list (string * string)) :
  phase s = Refining ->
  chat_history s <> [] ->
  Forall (fun t => fst t <> "" /\ snd t <> "") turns ->
  let s' := fold_left interact (chat_events turns) s in
  round_trips s (length turns) s' /\
  phase s' = Refining /\
  chat_history s' <> [].
Proof.
  intros P H. induction turns as [|[u a] turns IH] using rev_ind; intro F.
  - repeat split; [constructor | exact P | exact H].
  - apply Forall_app in F. destruct F as [F Fa].
    apply Forall_inv in Fa. cbn [fst snd] in Fa. destruct Fa as [U A].
    destruct (IH F) as (T & P' & H'). clear IH.
    cbv zeta. unfold chat_events. rewrite map_app, fold_left_app.
    fold (chat_events turns). cbn [map fold_left fst snd].
    set (s1 := fold_left interact (chat_events turns) s) in *.
    assert (R : refined s1 (press_send u (Returned (Some a))) a)
      by (repeat split; assumption).
    rewrite length_app, Nat.add_comm. cbn [length Nat.add].
    split; [exact (round_trips_S s _ s1 _ a T R)|].
    rewrite (interact_refined s1 _ a H' R). cbn.
    split.
    + apply phase_Refining. cbn. now apply str_truthy_true.
    + intro N. now apply app_eq_nil in N.
Qed.

(** C2, as stated, fails in two ways.  A generation call that succeeds with
    empty text leaves the history empty, so that after zero round trips it
    has no entry instead of one.  And a generation that follows a failed
    refinement finds the old history in place: after zero round trips the
    history has three entries and its last assistant entry is not the plan,
    and after one round trip it has five entries. *)
Lemma round_trips_count_fails :
  (ev_client (press_generate (Returned (Some "")))
     (generation_request
        "Why do leaves change color?" "Year 3" 3 "..." "..." "...")
   = Returned (Some "") /\
   round_trips session_empty_answer 0 session_empty_answer /\
   length (chat_history session_empty_answer) <> 1 + 2 * 0) /\
  (reachable session_after_failed_refinement /\
   phase session_after_failed_refinement = Composing /\
   generated (press_generate (Returned (Some "PLAN_V3"))) "PLAN_V3" /\
   round_trips session_regenerated 0 session_regenerated /\
   length (chat_history session_regenerated) <> 1 + 2 * 0 /\
   last_assistant (chat_history session_regenerated)
   <> Some (generated_plan session_regenerated) /\
   round_trips session_regenerated 1 session_regenerated_refined /\
   length (chat_history session_regenerated_refined) <> 1 + 2 * 1).
Proof.
  split; [split; [reflexivity | split; [constructor | discriminate]]|].
  split; [apply run_session_reachable|].
  split; [reflexivity|].
  split; [repeat split; discriminate|].
  split; [constructor|].
  split; [discriminate|]. split; [discriminate|].
  split; [|discriminate].
  apply (round_trips_S _ 0 _
           (press_send "make it shorter" (Returned (Some "PLAN_V4"))) "PLAN_V4").
  - constructor.
  - repeat split; discriminate.
Qed.

Lemma turn_entries_snoc (turns : list (string * string)) (u a : string) :
  turn_entries (turns ++ [(u, a)])
  = (turn_entries turns ++ [message user u; message assistant a])%list.
Proof.
  unfold turn_entries. now rewrite flat_map_app.
Qed.

(** C2, amended.  Take a session on the form with an empty history, a
    generation there that the client answers with non-empty text, and then
    [n] refinement round trips, each submitted in the chat view with
    non-empty text and answered by the client.  The history then has
    exactly [1 + 2 * n] entries: the seeded assistant entry holding the
    generated plan, followed by one user/assistant pair per round trip, in
    order, holding the text the user submitted and the text the client
    answered.  The plan is the content of the last assistant entry, that is
    the last answer, or the generated text when [n] is zero. *)
Theorem round_trips_history :
  forall (s : SessionState) (ev : Event) (text : string)
         (n : nat) (s' : SessionState),
    phase s = Composing ->
    chat_history s = [] ->
    generated ev text ->
    round_trips (interact s ev) n s' ->
    length (chat_history s') = 1 + 2 * n /\
    last_assistant (chat_history s') = Some (generated_plan s') /\
    exists turns : list (string * string),
      length turns = n /\
      chat_log (interact s ev) turns s' /\
      chat_history s' = message assistant text :: turn_entries turns /\
      generated_plan s' = Some (last (map snd turns) text).
Proof.
  intros s ev text n s' P E G T.
  assert (S : interact s ev
              = {| generated_plan := Some text;
                   chat_history := [message assistant text] |}).
  { rewrite (interact_generated s ev text P G).
    now rewrite seed_history_empty by exact E. }
  induction T as [|n s' ev' text' T IH F].
  - rewrite S. repeat split. exists []. repeat split. constructor.
  - destruct IH as (L & A & turns & N & K & H & Q).
    assert (H' : chat_history s' <> []) by (rewrite H; discriminate).
    rewrite (interact_refined s' ev' text' H' F). cbn [chat_history generated_plan].
    split; [rewrite length_app, L; simpl; lia|].
    split.
    + change [message user (user_input (ev_ui ev')); message assistant text']
        with ([message user (user_input (ev_ui ev'))]
              ++ [mkMessage assistant (Some text')])%list.
      rewrite app_assoc. apply last_assistant_snoc.
    + exists (turns ++ [(user_input (ev_ui ev'), text')])%list.
      split; [rewrite length_app, N; simpl; lia|].
      split; [rewrite <- (interact_refined s' ev' text' H' F);
              now constructor|].
      split.
      * now rewrite turn_entries_snoc, H.
      * rewrite map_app. cbn [map snd]. now rewrite last_last.
Qed.

Lemma round_trips_history_witness :
  phase session_start = Composing /\
  chat_history session_start = [] /\
  generated (press_generate (Returned (Some "PLAN_V1"))) "PLAN_V1" /\
  round_trips
    (interact session_start (press_generate (Returned (Some "PLAN_V1"))))
    1 session_refined_once /\
  length (chat_history session_refined_once) = 1 + 2 * 1 /\
  last_assistant (chat_history session_refined_once)
  = Some (generated_plan session_refined_once) /\
  exists turns : list (string * string),
    length turns = 1 /\
    chat_history session_refined_once
    = message assistant "PLAN_V1" :: turn_entries turns.
Proof.
  assert (G : generated (press_generate (Returned (Some "PLAN_V1"))) "PLAN_V1")
    by (repeat split; discriminate).
  assert (T : round_trips
                (interact session_start
                          (press_generate (Returned (Some "PLAN_V1"))))
                1 session_refined_once).
  { apply (round_trips_S _ 0 _
             (press_send "add more group work" (Returned (Some "PLAN_V2")))
             "PLAN_V2").
    - constructor.
    - repeat split; discriminate. }
  split; [reflexivity|]. split; [reflexivity|].
  split; [exact G|]. split; [exact T|].
  destruct (round_trips_history session_start
              (press_generate (Returned (Some "PLAN_V1"))) "PLAN_V1"
              1 session_refined_once eq_refl eq_refl G T)
    as (L & A & turns & N & _ & H & _).
  split; [exact L|]. split; [exact A|].
  exists turns. split; [exact N | exact H].
Defined.

(** ** C3: an incomplete form *)

Lemma year_group_label_nonempty (y : YearGroup) : year_group_label y <> "".
Proof. destruct y; discriminate. Qed.

(** C3.  On the form, when [Generate] is pressed while one of the five
    required text fields (enquiry question, year group, objectives, active
    learning, adaptive practices) is empty, the run shows the warning and
    nothing else, makes no client call, and leaves the session as it was. *)
Theorem generate_incomplete_form_warns :
  forall (client : Client) (session : option SessionState) (ui : Widgets),
    phase (init_session_state session) = Composing ->
    clicked ui = Some GenerateButton ->
    enquiry_question ui = "" \/
    year_group_label (year_group ui) = "" \/
    objectives ui = "" \/
    active_learning ui = "" \/
    adaptive_practices ui = "" ->
    let r := main client session ui in
    shown (trace r) = [st_warning fill_warning] /\
    calls (trace r) = [] /\
    state r = init_session_state session /\
    rerun r = false.
Proof.
  intros client session ui P C E. cbv zeta.
  rewrite main_Composing by exact P.
  unfold form_view. rewrite (button_clicked _ _ _ C). cbn [Button_eqb].
  assert (A : Py.all [enquiry_question ui; objectives ui;
                      active_learning ui; adaptive_practices ui] = false).
  { unfold Py.all. cbn [forallb].
    destruct E as [E|[E|[E|[E|E]]]];
      try (now apply year_group_label_nonempty in E);
      rewrite E; cbn; rewrite ?andb_false_r; reflexivity. }
  rewrite A. cbn. repeat split.
Qed.

Lemma generate_incomplete_form_warns_witness :
  phase (init_session_state None) = Composing /\
  shown (trace (main (stub (Returned (Some "PLAN_V1"))) None
                     (chat_form "" (Some GenerateButton))))
  = [st_warning fill_warning] /\
  calls (trace (main (stub (Returned (Some "PLAN_V1"))) None
                     (chat_form "" (Some GenerateButton)))) = [].
Proof.
  split; [reflexivity|].
  pose proof (generate_incomplete_form_warns
                (stub (Returned (Some "PLAN_V1"))) None
                (chat_form "" (Some GenerateButton))
                eq_refl eq_refl (or_introl eq_refl)) as (W & K & _).
  split; [exact W | exact K].
Defined.

(** ** C4: a failed generation call *)

(** C4.  On the form, when [Generate] is pressed on a complete form and the
    client call raises, the session is left exactly as it was, hence still
    in the Composing phase with the plan it had (none); the failure is shown
    as one [st.error] message, no warning is shown, and no rerun is
    requested. *)
Theorem generate_failure_stays_composing :
  forall (client : Client) (session : option SessionState) (ui : Widgets)
         (e : string),
    phase (init_session_state session) = Composing ->
    clicked ui = Some GenerateButton ->
    Py.all [enquiry_question ui; objectives ui;
            active_learning ui; adaptive_practices ui] = true ->
    client (generation_request
              (enquiry_question ui) (year_group_label (year_group ui))
              (num_lessons ui) (objectives ui) (active_learning ui)
              (adaptive_practices ui)) = Raised e ->
    let r := main client session ui in
    state r = init_session_state session /\
    phase (state r) = Composing /\
    generated_plan (state r) = generated_plan (init_session_state session) /\
    shown (trace r) = [st_error ("Error generating lesson plan: " ++ e)] /\
    existsb is_warning (shown (trace r)) = false /\
    rerun r = false.
Proof.
  intros client session ui e P C V F. cbv zeta.
  rewrite main_Composing by exact P.
  unfold form_view, generate_lesson_plan_with_openai.
  rewrite (button_clicked _ _ _ C), V, F. cbn.
  repeat split. exact P.
Qed.

Lemma generate_failure_stays_composing_witness :
  phase (init_session_state None) = Composing /\
  state (main (stub (Raised "timeout")) None (leaves_form (Some GenerateButton)))
  = {| generated_plan := None; chat_history := [] |} /\
  shown (trace (main (stub (Raised "timeout")) None
                     (leaves_form (Some GenerateButton))))
  = [st_error "Error generating lesson plan: timeout"].
Proof.
  split; [reflexivity|].
  pose proof (generate_failure_stays_composing
                (stub (Raised "timeout")) None
                (leaves_form (Some GenerateButton)) "timeout"
                eq_refl eq_refl eq_refl eq_refl) as (S & _ & _ & D & _).
  split; [exact S | exact D].
Defined.

(** ** C5: the parameters of the client calls *)

Lemma planner_request_shape (prompt : string) :
  planner_shape (planner_request prompt).
Proof. split; reflexivity. Qed.

Lemma chat_request_shape (h : list Message) (text : string) :
  chat_shape (chat_request h text).
Proof. split; reflexivity. Qed.

Lemma form_view_calls (client : Client) (s : SessionState) (ui : Widgets) :
  Forall planner_shape (calls (trace (form_view client s ui))).
Proof.
  unfold form_view, generate_lesson_plan_with_openai.
  destruct (button ui GenerateButton); [|constructor].
  destruct (negb _); [constructor|].
  destruct (client _) as [content|e]; cbn.
  - destruct (Py.truthy content); cbn;
      repeat constructor.
  - repeat constructor.
Qed.

Lemma chat_view_calls (client : Client) (s : SessionState) (ui : Widgets) :
  Forall planner_shape (calls (trace (chat_view client s ui))).
Proof.
  rewrite chat_view_calls_send.
  unfold send, refine_lesson_plan_with_openai.
  destruct (button ui SendButton);
    [destruct (Py.str_truthy (user_input ui)); [destruct (client _)|]|];
    cbn; repeat constructor.
Qed.

Lemma main_calls (client : Client) (session : option SessionState)
    (ui : Widgets) :
  Forall planner_shape (calls (trace (main client session ui))).
Proof.
  unfold main. destruct (negb _);
    [apply form_view_calls | apply chat_view_calls].
Qed.

(** C5, as stated, fails for the user's chat submission: the call made when
    [Send] is pressed in [chat_submission_run] is the refinement request,
    with temperature 0.7 and 4000 tokens, not 0.5 and 2000. *)
Lemma chat_submission_uses_planner_shape :
  calls (trace chat_submission_run)
  = [refinement_request (Some "PLAN_V1") "add more group work"] /\
  Forall planner_shape (calls (trace chat_submission_run)) /\
  ~ Forall chat_shape (calls (trace chat_submission_run)).
Proof.
  split; [reflexivity|]. split; [apply main_calls|].
  intro H. inversion H as [|q l [_ M] _]. discriminate M.
Qed.

(** C5, amended.  The parameters are fixed per wrapper: every call made by
    [generate_lesson_plan_with_openai] or [refine_lesson_plan_with_openai]
    uses temperature 0.7 and 4000 tokens, and every call made by
    [get_chat_response] uses temperature 0.5 and 2000 tokens, the lower
    ceiling.  The page script never uses the latter: every call of every
    run, those made for a chat submission included, has the first shape. *)
Theorem call_shapes :
  (forall (client : Client) (enquiry_question year_group : string)
          (num_lessons : Z)
          (objectives active_learning adaptive_practices : string),
      Forall planner_shape
        (calls (snd (generate_lesson_plan_with_openai client
                       enquiry_question year_group num_lessons
                       objectives active_learning adaptive_practices)))) /\
  (forall (client : Client) (base_plan : option string)
          (user_comments : string),
      Forall planner_shape
        (calls (snd (refine_lesson_plan_with_openai client
                       base_plan user_comments)))) /\
  (forall (client : Client) (conversation_history : list Message)
          (user_input : string),
      Forall chat_shape
        (calls (snd (get_chat_response client
                       conversation_history user_input)))) /\
  (forall (client : Client) (session : option SessionState) (ui : Widgets),
      Forall planner_shape (calls (trace (main client session ui)))) /\
  (forall (s : SessionState) (ev : Event),
      Forall planner_shape (interact_calls s ev)) /\
  (2000 < 4000)%Z.
Proof.
  repeat split.
  - intros. unfold generate_lesson_plan_with_openai.
    destruct (client _); repeat constructor.
  - intros. unfold refine_lesson_plan_with_openai.
    destruct (client _); repeat constructor.
  - intros. unfold get_chat_response.
    destruct (client _); repeat constructor.
  - apply main_calls.
  - intros. unfold interact_calls. destruct (rerun _).
    + apply Forall_app. split; apply main_calls.
    + apply main_calls.
Qed.

(** ** C6: the first entry of the history *)

(** C6, as stated, fails: after one refinement the first entry still holds
    the plan that was generated first, while the plan is the refined one. *)
Lemma first_entry_is_not_latest_plan :
  reachable session_refined_once /\
  chat_history session_refined_once <> [] /\
  hd_error (chat_history session_refined_once)
  = Some (message assistant "PLAN_V1") /\
  generated_plan session_refined_once = Some "PLAN_V2" /\
  option_map content (hd_error (chat_history session_refined_once))
  <> Some (generated_plan session_refined_once).
Proof.
  split; [apply run_session_reachable|].
  repeat split; discriminate.
Qed.

(** C6, amended.  In every reachable session state whose history is not
    empty, the history has no system entry and its first entry is an
    assistant message holding the plan the history was seeded with.
    Precisely, however the session got there, it contains a [Generate]
    click made on the form over an empty history and answered with
    non-empty text; right after it that text was the plan and the only
    entry of the history; the history has not been emptied since; and the
    first entry still is an assistant message with that text.  The entry
    stays the first one for as long as the history is not emptied, whatever
    plans later refinements produce. *)
Theorem first_entry_is_seed_plan :
  forall s : SessionState,
    reachable s ->
    chat_history s <> [] ->
    (exists (text : string) (rest : list Message),
        text <> "" /\ chat_history s = message assistant text :: rest) /\
    no_system_entry (chat_history s) /\
    (forall ev : Event,
        chat_history (interact s ev) = [] \/
        hd_error (chat_history (interact s ev)) = hd_error (chat_history s)) /\
    (exists evs : list Event, s = run_session evs) /\
    (forall evs : list Event,
        s = run_session evs ->
        exists (before : list Event) (ev : Event) (after : list Event)
               (text : string),
          evs = (before ++ ev :: after)%list /\
          phase (run_session before) = Composing /\
          chat_history (run_session before) = [] /\
          generated ev text /\
          run_session (before ++ [ev])
          = {| generated_plan := Some text;
               chat_history := [message assistant text] |} /\
          (forall k : nat,
              k <= length after ->
              chat_history (run_session (before ++ ev :: firstn k after))
              <> []) /\
          hd_error (chat_history s) = Some (message assistant text)).
Proof.
  intros s R H. destruct (reachable_inv s R) as [S N].
  split; [|split; [exact N|split; [|split]]].
  - unfold seeded in S. destruct (chat_history s) as [|m rest] eqn:E;
      [contradiction|].
    destruct m as [r [text|]]; destruct S as [Sr St]; simpl in *;
      [|discriminate].
    exists text, rest. subst r. split; [now apply str_truthy_true | reflexivity].
  - intro ev.
    destruct (interact_history s ev) as [Z|(plan & more & _ & Z & _)];
      [now left | right].
    rewrite Z. destruct (chat_history s); [contradiction | reflexivity].
  - now apply reachable_run_session.
  - intros evs ->. now apply seeded_by_generation.
Qed.

Lemma first_entry_is_seed_plan_witness :
  reachable session_refined_once /\
  chat_history session_refined_once <> [] /\
  (exists (text : string) (rest : list Message),
      text <> "" /\
      chat_history session_refined_once = message assistant text :: rest) /\
  exists (before : list Event) (ev : Event) (after : list Event)
         (text : string),
    [press_generate (Returned (Some "PLAN_V1"));
     press_send "add more group work" (Returned (Some "PLAN_V2"))]
    = (before ++ ev :: after)%list /\
    generated ev text /\
    hd_error (chat_history session_refined_once)
    = Some (message assistant text).
Proof.
  assert (R : reachable session_refined_once) by apply run_session_reachable.
  assert (H : chat_history session_refined_once <> []) by discriminate.
  split; [exact R|]. split; [exact H|].
  destruct (first_entry_is_seed_plan session_refined_once R H)
    as (F & _ & _ & _ & G).
  split; [exact F|].
  destruct (G [press_generate (Returned (Some "PLAN_V1"));
               press_send "add more group work" (Returned (Some "PLAN_V2"))]
              eq_refl)
    as (before & ev & after & text & E & _ & _ & Ge & _ & _ & Hd).
  exists before, ev, after, text.
  split; [exact E|]. split; [exact Ge | exact Hd].
Defined.

(** ** C7: the state after a generation *)

(** C7, as stated, fails in two ways.  When the client answers the
    generation call with empty text, that text does not become the plan and
    the history stays empty.  And when a plan is generated after a failed
    refinement, the history is not seeded again: it keeps its three old
    entries. *)
Lemma generation_does_not_always_seed :
  (ev_client (press_generate (Returned (Some "")))
     (generation_request
        "Why do leaves change color?" "Year 3" 3 "..." "..." "...")
   = Returned (Some "") /\
   generated_plan session_empty_answer <> Some "" /\
   chat_history session_empty_answer <> [message assistant ""]) /\
  (reachable session_after_failed_refinement /\
   phase session_after_failed_refinement = Composing /\
   generated (press_generate (Returned (Some "PLAN_V3"))) "PLAN_V3" /\
   generated_plan session_regenerated = Some "PLAN_V3" /\
   length (chat_history session_regenerated) = 3 /\
   chat_history session_regenerated <> [message assistant "PLAN_V3"]).
Proof.
  split; [repeat split; discriminate|].
  split; [apply run_session_reachable|].
  repeat split; discriminate.
Qed.

(** C7, amended.  On the form of a session whose history is empty, as it is
    when the session starts and after a reset, once a generation call has
    returned non-empty text and the page has been rerun, the plan is that
    text and the history has exactly one entry, an assistant message with
    that same text. *)
Theorem generation_seeds_history :
  forall (s : SessionState) (ev : Event) (text : string),
    phase s = Composing ->
    chat_history s = [] ->
    generated ev text ->
    generated_plan (interact s ev) = Some text /\
    chat_history (interact s ev) = [message assistant text] /\
    length (chat_history (interact s ev)) = 1 /\
    phase (interact s ev) = Refining.
Proof.
  intros s ev text P E G.
  rewrite (interact_generated s ev text P G).
  rewrite seed_history_empty by exact E. cbn.
  repeat split. apply phase_Refining. cbn.
  destruct G as (_ & _ & _ & T). now apply str_truthy_true.
Qed.

Lemma generation_seeds_history_witness :
  phase session_start = Composing /\
  chat_history session_start = [] /\
  generated (press_generate (Returned (Some "PLAN_V1"))) "PLAN_V1" /\
  generated_plan session_with_plan = Some "PLAN_V1" /\
  chat_history session_with_plan = [message assistant "PLAN_V1"].
Proof.
  assert (G : generated (press_generate (Returned (Some "PLAN_V1"))) "PLAN_V1")
    by (repeat split; discriminate).
  split; [reflexivity|]. split; [reflexivity|]. split; [exact G|].
  pose proof (generation_seeds_history session_start
                (press_generate (Returned (Some "PLAN_V1"))) "PLAN_V1"
                eq_refl eq_refl G) as (A & B & _).
  split; [exact A | exact B].
Defined.

(** ** C8: the reset *)

(** C8.  Whatever the session holds, pressing [Create New Plan] in the chat
    view sets the plan to absent and the history to empty, both at the end
    of that run and after the rerun it requests. *)
Theorem new_plan_resets :
  forall (client : Client) (s : SessionState) (ui : Widgets),
    phase s = Refining ->
    clicked ui = Some NewPlanButton ->
    let r := main client (Some s) ui in
    generated_plan (state r) = None /\
    chat_history (state r) = [] /\
    rerun r = true /\
    interact s (mkEvent ui client) = session_start.
Proof.
  intros client s ui P C.
  assert (M : main client (Some s) ui
              = mkRun {| generated_plan := None; chat_history := [] |}
                      quiet true).
  { rewrite main_Refining by exact P.
    rewrite chat_view_with_plan;
      rewrite send_not_clicked by (now rewrite (button_clicked _ _ _ C));
      cbn [fst snd].
    - now rewrite (button_clicked _ _ _ C).
    - rewrite seed_history_plan. apply truthy_not_None.
      now apply phase_Refining. }
  cbv zeta. unfold interact. cbn [ev_ui ev_client]. rewrite M.
  repeat split.
Qed.

Lemma new_plan_resets_witness :
  phase session_refined_once = Refining /\
  interact session_refined_once press_new_plan
  = {| generated_plan := None; chat_history := [] |}.
Proof.
  split; [reflexivity|].
  exact (proj2 (proj2 (proj2
    (new_plan_resets (stub (Raised "unused")) session_refined_once
       (chat_form "" (Some NewPlanButton)) eq_refl eq_refl)))).
Defined.

(** ** C9: the generation prompt *)

(** C9.  Whatever the field values are, the generation prompt contains the
    enquiry question, the year group and the decimal rendering of the
    number of lessons as substrings, unchanged. *)
Theorem generation_prompt_contains_fields :
  forall (enquiry_question year_group : string) (num_lessons : Z)
         (objectives active_learning adaptive_practices : string),
    let prompt :=
      generation_prompt enquiry_question year_group num_lessons
                        objectives active_learning adaptive_practices in
    (Py.contains enquiry_question prompt = true /\
     Py.contains year_group prompt = true /\
     Py.contains (Py.str_of_int num_lessons) prompt = true) /\
    ((exists pre post, prompt = pre ++ enquiry_question ++ post) /\
     (exists pre post, prompt = pre ++ year_group ++ post) /\
     (exists pre post, prompt = pre ++ Py.str_of_int num_lessons ++ post)).
Proof.
  intros enquiry_question year_group num_lessons
         objectives active_learning adaptive_practices prompt.
  assert (C : Py.contains enquiry_question prompt = true /\
              Py.contains year_group prompt = true /\
              Py.contains (Py.str_of_int num_lessons) prompt = true).
  { unfold prompt, generation_prompt. repeat split; find_placeholder. }
  split; [exact C|].
  destruct C as (Q & Y & L). repeat split; now apply contains_iff.
Qed.

(** ** C10: an empty chat submission *)

(** C10.  In the chat view of a reachable session, pressing [Send] with an
    empty text area changes nothing: the session state is the same after
    the run, no client call is made, nothing is displayed and no rerun is
    requested. *)
Theorem send_empty_input_is_noop :
  forall (client : Client) (s : SessionState) (ui : Widgets),
    reachable s ->
    phase s = Refining ->
    clicked ui = Some SendButton ->
    user_input ui = "" ->
    let r := main client (Some s) ui in
    state r = s /\
    chat_history (state r) = chat_history s /\
    generated_plan (state r) = generated_plan s /\
    calls (trace r) = [] /\
    shown (trace r) = [] /\
    rerun r = false.
Proof.
  intros client s ui R P C U.
  pose proof (reachable_Refining_seeded s R P) as H.
  assert (M : main client (Some s) ui = mkRun s quiet false).
  { assert (S : send client (seed_history s) ui = (s, quiet)).
    { unfold send. rewrite (seed_history_nonempty s H).
      now rewrite (button_clicked _ _ _ C), U. }
    rewrite main_Refining by exact P.
    rewrite chat_view_with_plan; rewrite S; cbn [fst snd].
    - now rewrite (button_clicked _ _ _ C).
    - apply truthy_not_None. now apply phase_Refining. }
  cbv zeta. rewrite M. repeat split.
Qed.

Lemma send_empty_input_is_noop_witness :
  reachable session_refined_once /\
  phase session_refined_once = Refining /\
  state (main (stub (Returned (Some "PLAN_V3"))) (Some session_refined_once)
              (chat_form "" (Some SendButton)))
  = session_refined_once /\
  calls (trace (main (stub (Returned (Some "PLAN_V3"))) (Some session_refined_once)
                     (chat_form "" (Some SendButton)))) = [].
Proof.
  assert (R : reachable session_refined_once) by apply run_session_reachable.
  split; [exact R|]. split; [reflexivity|].
  pose proof (send_empty_input_is_noop
                (stub (Returned (Some "PLAN_V3"))) session_refined_once
                (chat_form "" (Some SendButton))
                R eq_refl eq_refl eq_refl) as (A & _ & _ & B & _).
  split; [exact A | exact B].
Defined.

(** * Further properties of the script *)

(** ** The prompts *)

(** The generation prompt also contains the learning objectives, the active
    learning activities and the adaptive teaching practices, unchanged,
    whatever characters they hold. *)
Theorem generation_prompt_contains_inputs :
  forall (enquiry_question year_group : string) (num_lessons : Z)
         (objectives active_learning adaptive_practices : string),
    let prompt :=
      generation_prompt enquiry_question year_group num_lessons
                        objectives active_learning adaptive_practices in
    Py.contains objectives prompt = true /\
    Py.contains active_learning prompt = true /\
    Py.contains adaptive_practices prompt = true.
Proof.
  intros enquiry_question year_group num_lessons
         objectives active_learning adaptive_practices prompt.
  unfold prompt, generation_prompt.
  repeat split; find_placeholder.
Qed.

(** The refinement prompt contains the plan it is asked to refine and the
    user's comments, unchanged; a missing plan appears as the word None. *)
Theorem refinement_prompt_contains_inputs :
  forall (base_plan : option string) (user_comments : string),
    Py.contains user_comments (refinement_prompt base_plan user_comments) = true /\
    Py.contains (Py.format base_plan)
                (refinement_prompt base_plan user_comments) = true /\
    (forall text : string,
        base_plan = Some text ->
        Py.contains text (refinement_prompt base_plan user_comments) = true) /\
    (base_plan = None ->
     Py.contains "None" (refinement_prompt base_plan user_comments) = true).
Proof.
  intros base_plan user_comments. unfold refinement_prompt.
  repeat split.
  - find_placeholder.
  - find_placeholder.
  - intros text ->. cbn [Py.format]. find_placeholder.
  - intros ->. cbn [Py.format]. find_placeholder.
Qed.

(** ** The client wrappers *)

(** The two planner wrappers always make exactly one call, with the request
    built from their arguments.  They hand back the client's text exactly
    when the call returns text; they return [None] when the call raises and
    also when it returns an answer without content; and they display
    something, one [st.error], exactly when the call raises.  So a [None]
    result does not tell the caller that an error was shown. *)
Theorem planner_wrappers_outcome :
  forall (client : Client),
    (forall (enquiry_question year_group : string) (num_lessons : Z)
            (objectives active_learning adaptive_practices : string),
        let request :=
          generation_request enquiry_question year_group num_lessons
                             objectives active_learning adaptive_practices in
        let r :=
          generate_lesson_plan_with_openai client
            enquiry_question year_group num_lessons
            objectives active_learning adaptive_practices in
        calls (snd r) = [request] /\
        (fst r = None <->
         (exists e, client request = Raised e) \/ client request = Returned None) /\
        (shown (snd r) <> [] <-> exists e, client request = Raised e) /\
        (forall e, client request = Raised e ->
                   shown (snd r)
                   = [st_error ("Error generating lesson plan: " ++ e)]) /\
        (forall text,
            fst r = Some text <-> client request = Returned (Some text)) /\
        Forall (fun d => is_warning d = false) (shown (snd r))) /\
    (forall (base_plan : option string) (user_comments : string),
        let request := refinement_request base_plan user_comments in
        let r := refine_lesson_plan_with_openai client base_plan user_comments in
        calls (snd r) = [request] /\
        (fst r = None <->
         (exists e, client request = Raised e) \/ client request = Returned None) /\
        (shown (snd r) <> [] <-> exists e, client request = Raised e) /\
        (forall e, client request = Raised e ->
                   shown (snd r)
                   = [st_error ("Error refining lesson plan: " ++ e)]) /\
        (forall text,
            fst r = Some text <-> client request = Returned (Some text)) /\
        Forall (fun d => is_warning d = false) (shown (snd r))).
Proof.
  intro client. split; intros; subst r;
    unfold generate_lesson_plan_with_openai, refine_lesson_plan_with_openai;
    fold request; destruct (client request) as [[text|]|e]; cbn;
    repeat match goal with
           | |- _ /\ _ => split
           | |- _ <-> _ => split
           | |- Forall _ _ => repeat constructor
           | |- forall _, _ => intro
           | H : exists _, _ |- _ => destruct H
           | H : _ \/ _ |- _ => destruct H
           | |- (exists _, Raised ?e = Raised _) \/ _ => left; now exists e
           | |- _ \/ Returned None = Returned None => now right
           | |- exists _, Raised ?e = Raised _ => now exists e
           end;
    congruence.
Qed.

(** [get_chat_response] hands the text of a failure back as if it were the
    reply: a call that raises [e] and a call that returns the text
    "Error getting response: e" give the same result, and neither displays
    anything. *)
Theorem get_chat_response_hides_failure :
  forall (failing answering : Client) (conversation_history : list Message)
         (user_input e : string),
    failing (chat_request conversation_history user_input) = Raised e ->
    answering (chat_request conversation_history user_input)
    = Returned (Some ("Error getting response: " ++ e)) ->
    get_chat_response failing conversation_history user_input
    = get_chat_response answering conversation_history user_input /\
    fst (get_chat_response failing conversation_history user_input)
    = Some ("Error getting response: " ++ e) /\
    shown (snd (get_chat_response failing conversation_history user_input)) = [].
Proof.
  intros failing answering h u e F A.
  unfold get_chat_response. rewrite F, A. repeat split.
Qed.

Lemma get_chat_response_hides_failure_witness :
  get_chat_response (stub (Raised "timeout")) [message assistant "PLAN_V1"] "hello"
  = get_chat_response (stub (Returned (Some "Error getting response: timeout")))
                      [message assistant "PLAN_V1"] "hello".
Proof.
  exact (proj1 (get_chat_response_hides_failure
                  (stub (Raised "timeout"))
                  (stub (Returned (Some "Error getting response: timeout")))
                  [message assistant "PLAN_V1"] "hello" "timeout"
                  eq_refl eq_refl)).
Defined.

(** The request of [get_chat_response] carries the whole conversation: the
    system message first, then the history in its order, then the new user
    text, so that it is two messages longer than the history. *)
Theorem chat_request_carries_history :
  forall (client : Client) (conversation_history : list Message)
         (user_input : string),
    exists request : Request,
      calls (snd (get_chat_response client conversation_history user_input))
      = [request] /\
      length (messages request) = 2 + length conversation_history /\
      hd_error (messages request) = Some (message system chat_system_prompt) /\
      last (messages request) (message system "") = message user user_input /\
      (forall i : nat,
          i < length conversation_history ->
          nth_error (messages request) (S i) = nth_error conversation_history i).
Proof.
  intros client h u. exists (chat_request h u). split.
  - unfold get_chat_response. now destruct (client _).
  - unfold chat_request. cbn [messages]. repeat split.
    + rewrite !length_app. simpl. lia.
    + rewrite app_assoc. apply last_last.
    + intros i L. change (nth_error (h ++ [message user u]) i = nth_error h i).
      now apply nth_error_app1.
Qed.

(** ** The calls made by the page *)

Lemma main_no_click (client : Client) (s : SessionState) (ui : Widgets) :
  trace (main client (Some s) (no_click ui)) = quiet /\
  rerun (main client (Some s) (no_click ui)) = false /\
  state (main client (Some s) (no_click ui))
  = if Py.truthy (generated_plan s) then seed_history s else s.
Proof.
  unfold main. cbn [init_session_state].
  destruct (Py.truthy (generated_plan s)) eqn:T; cbn [negb];
    [rewrite chat_view_no_click by (now apply truthy_not_None)|];
    repeat split.
Qed.

Lemma form_view_calls_length (client : Client) (s : SessionState) (ui : Widgets) :
  length (calls (trace (form_view client s ui))) <= 1 /\
  Forall is_planner_request (calls (trace (form_view client s ui))).
Proof.
  unfold form_view, generate_lesson_plan_with_openai, generation_request.
  destruct (button ui GenerateButton); [|split; [simpl; lia | constructor]].
  destruct (negb _); [split; [simpl; lia | constructor]|].
  destruct (client _) as [content|e]; cbn.
  - destruct (Py.truthy content); cbn;
      (split; [lia | repeat constructor; eexists; reflexivity]).
  - split; [lia | repeat constructor; eexists; reflexivity].
Qed.

Lemma chat_view_calls_length (client : Client) (s : SessionState) (ui : Widgets) :
  length (calls (trace (chat_view client s ui))) <= 1 /\
  Forall is_planner_request (calls (trace (chat_view client s ui))).
Proof.
  rewrite chat_view_calls_send.
  unfold send, refine_lesson_plan_with_openai, refinement_request.
  destruct (button ui SendButton);
    [destruct (Py.str_truthy (user_input ui)); [destruct (client _)|]|];
    cbn; (split; [lia | repeat constructor; eexists; reflexivity]).
Qed.

Lemma main_calls_length (client : Client) (session : option SessionState)
    (ui : Widgets) :
  length (calls (trace (main client session ui))) <= 1 /\
  Forall is_planner_request (calls (trace (main client session ui))).
Proof.
  unfold main. destruct (negb _);
    [apply form_view_calls_length | apply chat_view_calls_length].
Qed.

Lemma interact_calls_first_run (s : SessionState) (ev : Event) :
  interact_calls s ev = calls (trace (main (ev_client ev) (Some s) (ev_ui ev))).
Proof.
  unfold interact_calls. destruct (rerun _); [|reflexivity].
  destruct (main_no_click (ev_client ev)
              (state (main (ev_client ev) (Some s) (ev_ui ev))) (ev_ui ev))
    as (T & _). rewrite T. apply app_nil_r.
Qed.

(** No retry and no second call: a run of the script, and a whole
    interaction with the rerun it may cause, calls the client at most
    once. *)
Theorem at_most_one_call :
  (forall (client : Client) (session : option SessionState) (ui : Widgets),
      length (calls (trace (main client session ui))) <= 1) /\
  (forall (s : SessionState) (ev : Event),
      length (interact_calls s ev) <= 1).
Proof.
  split.
  - intros. apply main_calls_length.
  - intros. rewrite interact_calls_first_run. apply main_calls_length.
Qed.

(** The page never sends the chat history to the client: every call it
    makes is a planner request, that is the fixed system message followed by
    a single user message holding a prompt, however long the history is. *)
Theorem page_calls_are_planner_requests :
  forall (s : SessionState) (ev : Event),
    Forall (fun q => is_planner_request q /\
                     length (messages q) = 2 /\
                     hd_error (messages q)
                     = Some (message system planner_system_prompt))
           (interact_calls s ev).
Proof.
  intros s ev. rewrite interact_calls_first_run.
  destruct (main_calls_length (ev_client ev) (Some s) (ev_ui ev)) as [_ F].
  eapply Forall_impl; [|exact F].
  intros q (prompt & ->). repeat split. now exists prompt.
Qed.

(** ** The form view *)

Lemma all_fields_filled (a b c d : string) :
  Py.all [a; b; c; d] = true <-> a <> "" /\ b <> "" /\ c <> "" /\ d <> "".
Proof.
  unfold Py.all. cbn [forallb]. rewrite !andb_true_iff, !str_truthy_true.
  tauto.
Qed.

(** On the form, a [Generate] click reaches the client exactly when the four
    text areas are non-empty, and then with the request built from the
    fields.  Only emptiness counts: neither the year group nor the number of
    lessons can block the call, and a field holding only blanks passes. *)
Theorem generate_calls_iff_filled :
  forall (client : Client) (session : option SessionState) (ui : Widgets),
    phase (init_session_state session) = Composing ->
    clicked ui = Some GenerateButton ->
    let r := main client session ui in
    (calls (trace r) <> [] <->
     enquiry_question ui <> "" /\ objectives ui <> "" /\
     active_learning ui <> "" /\ adaptive_practices ui <> "") /\
    (calls (trace r) <> [] ->
     calls (trace r)
     = [generation_request
          (enquiry_question ui) (year_group_label (year_group ui))
          (num_lessons ui) (objectives ui) (active_learning ui)
          (adaptive_practices ui)]) /\
    (calls (trace r) = [] <-> shown (trace r) = [st_warning fill_warning]).
Proof.
  intros client session ui P C. cbv zeta.
  rewrite main_Composing by exact P.
  unfold form_view, generate_lesson_plan_with_openai.
  rewrite (button_clicked _ _ _ C). cbn [Button_eqb].
  rewrite <- all_fields_filled.
  destruct (Py.all _); cbn [negb].
  - destruct (client _) as [content|e]; cbn.
    + destruct (Py.truthy content); cbn;
        repeat split; try discriminate; try reflexivity; intros; congruence.
    + repeat split; try discriminate; try reflexivity; intros; congruence.
  - cbn. repeat split; try discriminate; try reflexivity; intros; congruence.
Qed.

Lemma generate_calls_iff_filled_witness :
  phase (init_session_state None) = Composing /\
  calls (trace (main (stub (Returned (Some "PLAN_V1"))) None
                     (blank_form (Some GenerateButton))))
  = [generation_request " " "Reception" 1 " " " " " "].
Proof.
  split; [reflexivity|].
  pose proof (generate_calls_iff_filled
                (stub (Returned (Some "PLAN_V1"))) None
                (blank_form (Some GenerateButton)) eq_refl eq_refl)
    as ((_ & F) & K & _).
  apply K, F. repeat split; discriminate.
Defined.

(** A generation that the client answers with empty text, or with an answer
    that has no content, is dropped without a trace: the session is
    unchanged and nothing is displayed, neither an error nor a warning nor
    the success message, although the call was made. *)
Theorem generate_empty_answer_is_silent :
  forall (client : Client) (session : option SessionState) (ui : Widgets)
         (content : option string),
    phase (init_session_state session) = Composing ->
    clicked ui = Some GenerateButton ->
    Py.all [enquiry_question ui; objectives ui;
            active_learning ui; adaptive_practices ui] = true ->
    content = Some "" \/ content = None ->
    client (generation_request
              (enquiry_question ui) (year_group_label (year_group ui))
              (num_lessons ui) (objectives ui) (active_learning ui)
              (adaptive_practices ui)) = Returned content ->
    let r := main client session ui in
    state r = init_session_state session /\
    shown (trace r) = [] /\
    length (calls (trace r)) = 1 /\
    rerun r = false.
Proof.
  intros client session ui content P C V E F. cbv zeta.
  rewrite main_Composing by exact P.
  unfold form_view, generate_lesson_plan_with_openai.
  rewrite (button_clicked _ _ _ C), V, F.
  destruct E as [-> | ->]; cbn; repeat split.
Qed.

Lemma generate_empty_answer_is_silent_witness :
  phase (init_session_state None) = Composing /\
  state (main (stub (Returned (Some ""))) None (leaves_form (Some GenerateButton)))
  = {| generated_plan := None; chat_history := [] |} /\
  shown (trace (main (stub (Returned (Some ""))) None
                     (leaves_form (Some GenerateButton)))) = [].
Proof.
  split; [reflexivity|].
  pose proof (generate_empty_answer_is_silent
                (stub (Returned (Some ""))) None
                (leaves_form (Some GenerateButton)) (Some "")
                eq_refl eq_refl eq_refl (or_introl eq_refl) eq_refl)
    as (A & B & _).
  split; [exact A | exact B].
Defined.

(** The form view never touches the history, whatever is pressed and
    whatever the client does; and the only change it ever makes to the plan
    is to store the non-empty text the client returned. *)
Theorem form_run_keeps_history :
  forall (client : Client) (session : option SessionState) (ui : Widgets),
    phase (init_session_state session) = Composing ->
    let r := main client session ui in
    chat_history (state r) = chat_history (init_session_state session) /\
    (state r = init_session_state session \/
     exists text : string,
       generated (mkEvent ui client) text /\
       generated_plan (state r) = Some text /\
       rerun r = true).
Proof.
  intros client session ui P. cbv zeta.
  rewrite main_Composing by exact P.
  destruct (form_view_outcome client (init_session_state session) ui)
    as [(E & _)|(text & G & E & R)]; rewrite E.
  - split; [reflexivity | now left].
  - split; [reflexivity | right]. exists text.
    split; [exact G | split; [reflexivity | exact R]].
Qed.

Lemma form_run_keeps_history_witness :
  phase (init_session_state (Some session_after_failed_refinement)) = Composing /\
  chat_history
    (state (main (stub (Returned (Some "PLAN_V3")))
                 (Some session_after_failed_refinement)
                 (leaves_form (Some GenerateButton))))
  = chat_history session_after_failed_refinement.
Proof.
  split; [reflexivity|].
  exact (proj1 (form_run_keeps_history
                  (stub (Returned (Some "PLAN_V3")))
                  (Some session_after_failed_refinement)
                  (leaves_form (Some GenerateButton)) eq_refl)).
Defined.

(** ** What one interaction can do *)

(** Out of a seeded chat view: a reset, nothing, or two appended entries
    and the plan replaced by what the refinement wrapper returned. *)
Lemma interact_Refining_cases (s : SessionState) (ev : Event) :
  phase s = Refining ->
  chat_history s <> [] ->
  (clicked (ev_ui ev) = Some NewPlanButton /\ interact s ev = session_start) \/
  ((clicked (ev_ui ev) <> Some SendButton \/ user_input (ev_ui ev) = "") /\
   clicked (ev_ui ev) <> Some NewPlanButton /\
   interact s ev = s) \/
  (clicked (ev_ui ev) = Some SendButton /\
   user_input (ev_ui ev) <> "" /\
   exists refined_plan : option string,
     refined_plan
     = fst (refine_lesson_plan_with_openai (ev_client ev) (generated_plan s)
                                           (user_input (ev_ui ev))) /\
     interact s ev =
     {| generated_plan := refined_plan;
        chat_history := (chat_history s
                         ++ [message user (user_input (ev_ui ev));
                             mkMessage assistant refined_plan])%list |}).
Proof.
  intros P H. destruct ev as [ui client]. unfold interact.
  cbn [ev_ui ev_client]. rewrite main_Refining by exact P.
  assert (N : generated_plan s <> None)
    by (apply truthy_not_None; now apply phase_Refining).
  destruct (chat_view_state client s ui) as [(B & R & E)|(R & E & D)];
    rewrite R, E; clear R E.
  - left. split; [now apply button_true|].
    now destruct (main_no_click client
                    {| generated_plan := None; chat_history := [] |} ui)
      as (_ & _ & ->).
  - right. revert D. unfold send. rewrite (seed_history_nonempty s H).
    destruct (button ui SendButton) eqn:S;
      [apply button_true in S;
       destruct (Py.str_truthy (user_input ui)) eqn:U|].
    + intros _. right. apply str_truthy_true in U.
      split; [exact S|]. split; [exact U|].
      destruct (refine_lesson_plan_with_openai _ _ _) as [p t] eqn:F.
      exists p. cbn. unfold set_generated_plan, append_chat_history. cbn.
      now rewrite <- app_assoc.
    + intros _. left. cbn [fst]. destruct (user_input ui); [|discriminate].
      repeat split; [now right | rewrite S; discriminate].
    + cbn [fst]. intros [D|D]; [contradiction|]. left.
      split; [left | split; [|reflexivity]];
        intro C; unfold button in *; rewrite C in *; discriminate.
Qed.

(** A run that no button of the current view triggered (the page is merely
    redrawn, or the download button was pressed) leaves a reachable session
    as it is, calls nobody and displays no message. *)
Theorem redraw_is_noop :
  forall (client : Client) (s : SessionState) (ui : Widgets),
    reachable s ->
    clicked ui = None \/ clicked ui = Some DownloadButton ->
    main client (Some s) ui = mkRun s quiet false.
Proof.
  intros client s ui R C.
  assert (B : forall b, b <> DownloadButton -> button ui b = false).
  { intros b N. unfold button. destruct C as [-> | ->]; [reflexivity|].
    destruct b; try reflexivity. now contradiction N. }
  unfold main. cbn [init_session_state].
  destruct (Py.truthy (generated_plan s)) eqn:T; cbn [negb].
  - rewrite chat_view_with_plan;
      rewrite send_not_clicked by (apply B; discriminate);
      rewrite (seed_history_nonempty s)
        by (apply reachable_Refining_seeded;
            [exact R | now apply phase_Refining]);
      cbn [fst snd].
    + now rewrite B by discriminate.
    + now apply truthy_not_None.
  - unfold form_view. now rewrite B by discriminate.
Qed.

Lemma redraw_is_noop_witness :
  reachable session_refined_once /\
  main (stub (Raised "unused")) (Some session_refined_once)
       (chat_form "draft" None)
  = mkRun session_refined_once quiet false.
Proof.
  assert (R : reachable session_refined_once) by apply run_session_reachable.
  split; [exact R|].
  exact (redraw_is_noop (stub (Raised "unused")) session_refined_once
                        (chat_form "draft" None) R (or_introl eq_refl)).
Defined.

(** A chat submission that the client answers: the user's text and the
    answer are appended, the answer becomes the plan, and the one call made
    asks to refine the plan that was current.  The session stays in the chat
    view exactly when the answer is not empty; an empty answer sends the
    user back to the form with the history still in place. *)
Theorem refinement_round_trip :
  forall (s : SessionState) (ev : Event) (text : string),
    reachable s ->
    refined s ev text ->
    interact s ev =
    {| generated_plan := Some text;
       chat_history := (chat_history s
                        ++ [message user (user_input (ev_ui ev));
                            message assistant text])%list |} /\
    interact_calls s ev
    = [refinement_request (generated_plan s) (user_input (ev_ui ev))] /\
    (phase (interact s ev) = Refining <-> text <> "") /\
    chat_history (interact s ev) <> [].
Proof.
  intros s ev text R F.
  pose proof F as (P & C & U & A).
  pose proof (reachable_Refining_seeded s R P) as H.
  rewrite (interact_refined s ev text H F).
  split; [reflexivity|]. split; [|split].
  - rewrite interact_calls_first_run. destruct ev as [ui client].
    cbn [ev_ui ev_client] in *. apply str_truthy_true in U.
    rewrite main_Refining by exact P. unfold chat_view, send.
    rewrite (seed_history_nonempty s H).
    rewrite !(button_clicked _ _ _ C). cbn [Button_eqb]. rewrite U.
    unfold refine_lesson_plan_with_openai.
    cbn [append_chat_history generated_plan]. now rewrite A.
  - rewrite phase_Refining. cbn. apply str_truthy_true.
  - cbn. intro N. now apply app_eq_nil in N.
Qed.

Lemma refinement_round_trip_witness :
  reachable session_with_plan /\
  refined session_with_plan
          (press_send "add more group work" (Returned (Some "PLAN_V2"))) "PLAN_V2" /\
  interact session_with_plan
           (press_send "add more group work" (Returned (Some "PLAN_V2")))
  = {| generated_plan := Some "PLAN_V2";
       chat_history := [message assistant "PLAN_V1";
                        message user "add more group work";
                        message assistant "PLAN_V2"] |}.
Proof.
  assert (R : reachable session_with_plan) by apply run_session_reachable.
  assert (F : refined session_with_plan
                (press_send "add more group work" (Returned (Some "PLAN_V2"))) "PLAN_V2")
    by (repeat split; discriminate).
  split; [exact R|]. split; [exact F|].
  exact (proj1 (refinement_round_trip session_with_plan
                  (press_send "add more group work" (Returned (Some "PLAN_V2")))
                  "PLAN_V2" R F)).
Defined.

(** ** The shape of the history *)

Lemma next_role_involutive (r : Role) : r <> system -> next_role (next_role r) = r.
Proof. destruct r; simpl; congruence. Qed.

Lemma alternates_app (r : Role) (h more : list Message) :
  r <> system ->
  alternates r (h ++ more)
  = alternates r h
    && alternates (if Nat.even (length h) then r else next_role r) more.
Proof.
  revert r. induction h as [|m h IH]; intros r N; [reflexivity|].
  cbn [app alternates length]. rewrite IH by (destruct r; simpl; congruence).
  rewrite Nat.even_succ, <- Nat.negb_even, next_role_involutive by exact N.
  rewrite <- andb_assoc. now destruct (Nat.even (length h)).
Qed.

(** The shape kept by every history: assistant and user entries in turn,
    starting and ending with an assistant entry. *)
Lemma alternates_snoc (h : list Message) (u : string) (a : option string) :
  alternates assistant h = true ->
  Nat.odd (length h) = true ->
  alternates assistant (h ++ [message user u; mkMessage assistant a]) = true /\
  Nat.odd (length (h ++ [message user u; mkMessage assistant a])) = true.
Proof.
  intros A O. split.
  - rewrite alternates_app, A by discriminate.
    rewrite <- Nat.negb_odd, O. reflexivity.
  - rewrite length_app, Nat.add_comm. exact O.
Qed.

Lemma reachable_alternates (s : SessionState) :
  reachable s ->
  chat_history s = [] \/
  (alternates assistant (chat_history s) = true /\
   Nat.odd (length (chat_history s)) = true /\
   role (last (chat_history s) (mkMessage system None)) = assistant).
Proof.
  induction 1 as [|s ev R IH]; [now left|].
  destruct (phase s) eqn:P.
  - destruct (interact_Composing_cases s ev P) as [->|(text & _ & ->)];
      [exact IH|].
    unfold seed_history, set_generated_plan, append_chat_history. cbn.
    destruct (chat_history s) eqn:H; cbn.
    + right. repeat split.
    + exact IH.
  - pose proof (reachable_Refining_seeded s R P) as H.
    destruct IH as [E|(A & O & L)]; [contradiction|].
    destruct (interact_Refining_cases s ev P H)
      as [(_ & ->)|[(_ & _ & ->)|(_ & _ & p & _ & ->)]].
    + now left.
    + right. repeat split; assumption.
    + right. cbn [chat_history].
      destruct (alternates_snoc (chat_history s) (user_input (ev_ui ev)) p A O)
        as [A' O'].
      repeat split; [exact A' | exact O'|].
      change [message user (user_input (ev_ui ev)); mkMessage assistant p]
        with ([message user (user_input (ev_ui ev))]
              ++ [mkMessage assistant p])%list.
      now rewrite app_assoc, last_last.
Qed.

(** In every reachable state the history is a conversation that the
    assistant opens and closes: roles alternate assistant, user, assistant,
    ..., so a non-empty history has an odd number of entries and its last
    entry is an assistant entry. *)
Theorem history_alternates :
  forall s : SessionState,
    reachable s ->
    alternates assistant (chat_history s) = true /\
    (chat_history s = [] \/ Nat.odd (length (chat_history s)) = true) /\
    (chat_history s <> [] ->
     role (last (chat_history s) (mkMessage system None)) = assistant).
Proof.
  intros s R.
  destruct (reachable_alternates s R) as [E|(A & O & L)].
  - rewrite E. repeat split; [now left | congruence].
  - repeat split; [exact A | now right | intros _; exact L].
Qed.

Lemma history_alternates_witness :
  reachable session_after_failed_refinement /\
  alternates assistant (chat_history session_after_failed_refinement) = true /\
  length (chat_history session_after_failed_refinement) = 3.
Proof.
  assert (R : reachable session_after_failed_refinement)
    by apply run_session_reachable.
  split; [exact R|].
  split; [exact (proj1 (history_alternates _ R)) | reflexivity].
Defined.

(** The history is append-only.  Unless [Create New Plan] was pressed, the
    history after an interaction starts with the history before it, and at
    most two entries were added. *)
Theorem history_append_only :
  forall (s : SessionState) (ev : Event),
    reachable s ->
    (clicked (ev_ui ev) = Some NewPlanButton /\ phase s = Refining /\
     chat_history (interact s ev) = []) \/
    exists more : list Message,
      chat_history (interact s ev) = (chat_history s ++ more)%list /\
      length more <= 2.
Proof.
  intros s ev R.
  assert (K : forall h : list Message,
             exists more : list Message, h = (h ++ more)%list /\ length more <= 2).
  { intro h. exists []. rewrite app_nil_r. split; [reflexivity | simpl; lia]. }
  destruct (phase s) eqn:P.
  - right.
    destruct (interact_Composing_cases s ev P) as [->|(text & _ & ->)];
      [apply K|].
    unfold seed_history, set_generated_plan, append_chat_history. cbn.
    destruct (chat_history s) eqn:H; cbn.
    + exists [mkMessage assistant (Some text)].
      split; [reflexivity | simpl; lia].
    + exact (K _).
  - pose proof (reachable_Refining_seeded s R P) as H.
    destruct (interact_Refining_cases s ev P H)
      as [(C & ->)|[(_ & _ & ->)|(_ & _ & p & _ & ->)]].
    + left. now repeat split.
    + right. apply K.
    + right. eexists. split; [reflexivity | simpl; lia].
Qed.

Lemma history_append_only_witness :
  reachable session_with_plan /\
  exists more : list Message,
    chat_history (interact session_with_plan
                    (press_send "add more group work" (Raised "timeout")))
    = (chat_history session_with_plan ++ more)%list /\
    length more <= 2.
Proof.
  assert (R : reachable session_with_plan) by apply run_session_reachable.
  split; [exact R|].
  destruct (history_append_only session_with_plan
              (press_send "add more group work" (Raised "timeout")) R)
    as [(C & _)|M].
  - discriminate C.
  - exact M.
Defined.

(** ** Changes of view *)

(** The chat view is entered in one way only: [Generate] was pressed on a
    filled form and the client returned non-empty text, which is then the
    plan. *)
Theorem chat_view_entered_by_generation :
  forall (s : SessionState) (ev : Event),
    phase s = Composing ->
    phase (interact s ev) = Refining ->
    exists text : string,
      generated ev text /\ generated_plan (interact s ev) = Some text.
Proof.
  intros s ev P Q.
  destruct (interact_Composing_cases s ev P) as [E|(text & G & E)].
  - rewrite E in Q. congruence.
  - exists text. split; [exact G|]. rewrite E.
    unfold seed_history. now destruct (chat_history _).
Qed.

Lemma chat_view_entered_by_generation_witness :
  phase session_start = Composing /\
  phase (interact session_start (press_generate (Returned (Some "PLAN_V1")))) = Refining /\
  exists text : string,
    generated (press_generate (Returned (Some "PLAN_V1"))) text /\
    generated_plan (interact session_start (press_generate (Returned (Some "PLAN_V1"))))
    = Some text.
Proof.
  split; [reflexivity|]. split; [reflexivity|].
  exact (chat_view_entered_by_generation session_start
           (press_generate (Returned (Some "PLAN_V1"))) eq_refl eq_refl).
Defined.

(** The chat view is left in two ways only: [Create New Plan] was pressed,
    or a non-empty chat submission came back without text, because the call
    raised, or returned an answer without content, or returned the empty
    string. *)
Theorem chat_view_left_by_reset_or_empty_refinement :
  forall (s : SessionState) (ev : Event),
    reachable s ->
    phase s = Refining ->
    phase (interact s ev) = Composing ->
    clicked (ev_ui ev) = Some NewPlanButton \/
    (clicked (ev_ui ev) = Some SendButton /\
     user_input (ev_ui ev) <> "" /\
     ((exists e : string,
          ev_client ev (refinement_request (generated_plan s)
                                           (user_input (ev_ui ev)))
          = Raised e) \/
      ev_client ev (refinement_request (generated_plan s) (user_input (ev_ui ev)))
      = Returned None \/
      ev_client ev (refinement_request (generated_plan s) (user_input (ev_ui ev)))
      = Returned (Some ""))).
Proof.
  intros s ev R P Q.
  pose proof (reachable_Refining_seeded s R P) as H.
  destruct (interact_Refining_cases s ev P H)
    as [(C & _)|[(_ & _ & E)|(C & U & p & F & E)]].
  - now left.
  - rewrite E in Q. congruence.
  - right. repeat split; [exact C | exact U|].
    rewrite E in Q. apply phase_Composing in Q. cbn in Q.
    unfold refine_lesson_plan_with_openai in F.
    destruct (ev_client ev _) as [[text|]|e]; cbn in F; subst p.
    + right; right. cbn in Q. destruct text; [reflexivity | discriminate].
    + right; now left.
    + left. now exists e.
Qed.

Lemma chat_view_left_by_reset_or_empty_refinement_witness :
  reachable session_with_plan /\
  phase session_with_plan = Refining /\
  phase (interact session_with_plan
                  (press_send "add more group work" (Returned None)))
  = Composing /\
  stub (Returned None)
       (refinement_request (generated_plan session_with_plan)
                           "add more group work")
  = Returned None.
Proof.
  assert (R : reachable session_with_plan) by apply run_session_reachable.
  split; [exact R|]. split; [reflexivity|]. split; [reflexivity|].
  destruct (chat_view_left_by_reset_or_empty_refinement session_with_plan
              (press_send "add more group work" (Returned None))
              R eq_refl eq_refl) as [C|(_ & _ & [(e & F)|[F|F]])].
  - discriminate C.
  - discriminate F.
  - exact F.
  - discriminate F.
Defined.

Lemma interact_new_plan (s : SessionState) (ev : Event) :
  phase s = Refining ->
  clicked (ev_ui ev) = Some NewPlanButton ->
  interact s ev = session_start.
Proof.
  intros P C. destruct ev as [ui client]. cbn [ev_ui] in C.
  unfold interact. cbn [ev_ui ev_client].
  rewrite main_Refining by exact P.
  rewrite chat_view_with_plan;
    rewrite send_not_clicked by (now rewrite (button_clicked _ _ _ C));
    cbn [fst snd].
  - now rewrite (button_clicked _ _ _ C).
  - rewrite seed_history_plan. apply truthy_not_None.
    now apply phase_Refining.
Qed.

(** The session can always be brought back to its initial state: from the
    chat view by [Create New Plan], and from the form, where that button
    does not exist, by generating a plan first.  Two interactions are
    enough, also when a failed refinement has left an old history behind
    the form. *)
Theorem session_start_within_two_interactions :
  forall s : SessionState,
    exists evs : list Event,
      length evs <= 2 /\ fold_left interact evs s = session_start.
Proof.
  intro s. destruct (phase s) eqn:P.
  - exists [press_generate (Returned (Some "PLAN")); press_new_plan].
    split; [simpl; lia|]. cbn [fold_left].
    apply interact_new_plan; [|reflexivity].
    rewrite (interact_generated s _ "PLAN" P)
      by (repeat split; discriminate).
    apply phase_Refining. unfold seed_history.
    now destruct (chat_history _).
  - exists [press_new_plan]. split; [simpl; lia|].
    now apply interact_new_plan.
Qed.

(** A generation made while the history is not empty does not put the new
    plan into the history: the history stays exactly as it was, only the
    plan is replaced. *)
Theorem generation_keeps_old_history :
  forall (s : SessionState) (ev : Event) (text : string),
    phase s = Composing ->
    chat_history s <> [] ->
    generated ev text ->
    interact s ev
    = {| generated_plan := Some text; chat_history := chat_history s |}.
Proof.
  intros s ev text P H G.
  rewrite (interact_generated s ev text P G).
  apply seed_history_nonempty. exact H.
Qed.

Lemma generation_keeps_old_history_witness :
  phase session_after_failed_refinement = Composing /\
  chat_history session_after_failed_refinement <> [] /\
  generated (press_generate (Returned (Some "PLAN_V3"))) "PLAN_V3" /\
  session_regenerated
  = {| generated_plan := Some "PLAN_V3";
       chat_history := chat_history session_after_failed_refinement |}.
Proof.
  assert (G : generated (press_generate (Returned (Some "PLAN_V3"))) "PLAN_V3")
    by (repeat split; discriminate).
  assert (H : chat_history session_after_failed_refinement <> [])
    by discriminate.
  split; [reflexivity|]. split; [exact H|]. split; [exact G|].
  exact (generation_keeps_old_history session_after_failed_refinement
           (press_generate (Returned (Some "PLAN_V3"))) "PLAN_V3" eq_refl H G).
Defined.

(** ** Rendering *)

Lemma prefix_user_block (m : Message) :
  prefix user_block_open (render_message m) = Role_eqb (role m) user.
Proof. unfold render_message. destruct (role m); reflexivity. Qed.

Lemma render_alternates (h : list Message) (r : Role) :
  r <> system ->
  alternates r h = true ->
  forall i : nat,
    i < length h ->
    option_map (prefix user_block_open) (nth_error (map render_message h) i)
    = Some (Role_eqb (if Nat.even i then r else next_role r) user).
Proof.
  revert r. induction h as [|m h IH]; intros r N A i L; [simpl in L; lia|].
  cbn [alternates] in A. apply andb_true_iff in A. destruct A as [Rm A].
  destruct i as [|i].
  - cbn [map nth_error option_map Nat.even]. rewrite prefix_user_block.
    destruct (role m), r; try discriminate; reflexivity.
  - cbn [map nth_error]. simpl in L.
    rewrite (IH (next_role r)); [| destruct r; simpl; congruence | exact A | lia].
    rewrite next_role_involutive by exact N.
    rewrite Nat.even_succ, <- Nat.negb_even.
    now destruct (Nat.even i).
Qed.

(** Every history entry becomes one block, which holds the entry's content
    as it is, without any escaping; a missing content shows as the word
    None.  The block is a user block exactly for the entries whose role is
    user: every other role, system included, is shown as the assistant. *)
Theorem render_message_verbatim :
  forall m : Message,
    Py.contains (Py.format (content m)) (render_message m) = true /\
    (content m = None -> Py.contains "None" (render_message m) = true) /\
    prefix user_block_open (render_message m) = Role_eqb (role m) user.
Proof.
  intro m.
  assert (C : Py.contains (Py.format (content m)) (render_message m) = true).
  { unfold render_message. destruct (Role_eqb (role m) user); find_placeholder. }
  repeat split.
  - exact C.
  - intro E. now rewrite E in C.
  - apply prefix_user_block.
Qed.

(** In the chat view of a reachable session the history is displayed in
    full, one block per entry, as assistant and user blocks in turn: the
    blocks at odd positions, counted from zero, are the user's. *)
Theorem render_chat_history_alternates :
  forall s : SessionState,
    reachable s ->
    phase s = Refining ->
    length (render_chat_history s) = length (chat_history s) /\
    forall i : nat,
      i < length (chat_history s) ->
      option_map (prefix user_block_open) (nth_error (render_chat_history s) i)
      = Some (Nat.odd i).
Proof.
  intros s R P. unfold render_chat_history.
  rewrite (seed_history_nonempty s (reachable_Refining_seeded s R P)).
  split; [apply length_map|].
  intros i L.
  destruct (reachable_alternates s R) as [E|(A & _ & _)];
    [rewrite E in L; simpl in L; lia|].
  rewrite (render_alternates (chat_history s) assistant) by (discriminate || assumption).
  rewrite <- Nat.negb_even. now destruct (Nat.even i).
Qed.

Lemma render_chat_history_alternates_witness :
  reachable session_refined_once /\
  phase session_refined_once = Refining /\
  length (render_chat_history session_refined_once) = 3 /\
  option_map (prefix user_block_open)
             (nth_error (render_chat_history session_refined_once) 1)
  = Some true.
Proof.
  assert (R : reachable session_refined_once) by apply run_session_reachable.
  split; [exact R|]. split; [reflexivity|].
  destruct (render_chat_history_alternates session_refined_once R eq_refl)
    as [L N].
  split; [exact L|].
  apply (N 1). simpl. lia.
Defined.

(** ** Plan and history together *)

(** In every reachable state a plan is on display only over a seeded
    history: while the history is empty there is no plan at all, not even an
    empty one, and the page shows the form. *)
Theorem empty_history_means_no_plan :
  forall s : SessionState,
    reachable s ->
    (chat_history s = [] -> generated_plan s = None /\ phase s = Composing) /\
    (phase s = Refining -> chat_history s <> []).
Proof.
  intros s R.
  assert (I : chat_history s = [] -> generated_plan s = None).
  { induction R as [|s ev R IH]; [reflexivity|].
    destruct (phase s) eqn:P.
    - destruct (interact_Composing_cases s ev P) as [->|(text & _ & ->)];
        [exact IH|].
      unfold seed_history, set_generated_plan, append_chat_history. cbn.
      destruct (chat_history s) eqn:H; cbn; discriminate.
    - pose proof (reachable_Refining_seeded s R P) as H.
      destruct (interact_Refining_cases s ev P H)
        as [(_ & ->)|[(_ & _ & ->)|(_ & _ & p & _ & ->)]].
      + reflexivity.
      + exact IH.
      + cbn. intro N. now apply app_eq_nil in N. }
  split.
  - intro E. split; [exact (I E)|].
    apply phase_Composing. now rewrite (I E).
  - intro P. now apply reachable_Refining_seeded.
Qed.

Lemma empty_history_means_no_plan_witness :
  reachable session_empty_answer /\
  chat_history session_empty_answer = [] /\
  generated_plan session_empty_answer = None.
Proof.
  assert (R : reachable session_empty_answer)
    by (apply reachable_interact, reachable_start).
  split; [exact R|]. split; [reflexivity|].
  exact (proj1 (proj1 (empty_history_means_no_plan _ R) eq_refl)).
Defined.
